(** * Password strength checker: a shallow embedding of [main.py]

    The development follows the source file top to bottom: the
    [PasswordStrengthChecker] class (constructor, the four checks, the
    entropy and crack-time estimators, [evaluate]), the stand-alone
    [simple_strength_check] and [main].

    Python values are modelled as follows.
    - A [str] is the list of its Unicode code points ([list N]).
    - A Python [int] is a [Z]; [//] is [Z.div] (both floor).
    - A [set] of strings is a [gset (list N)].
    - The instance attributes [self.score] and [self.feedback] are mutated
      by the methods, so methods are computations in a state-and-exception
      monad over the instance.
    - The one floating-point value of the program is the entropy
      [length * charset_size ** 0.5]. It is kept exact, as the pair
      [(length, charset_size)] that stands for the real number
      [length * sqrt charset_size]. What the program does with it, the
      floor of [entropy / 20], the rounding to one decimal and the test
      whether [2 ** entropy] still is a float, is computed on integers from
      its square [length * length * charset_size]; the module [EntropyReal]
      proves these integer formulas against the real number. They are
      also what the floats give: the square of an entropy is an integer, so
      an entropy below 1024 is either equal to one of the thresholds
      involved (multiples of 20, odd multiples of 0.05, 1024), in which
      case it is an integer and the float is exact, or more than [1e-6]
      away from it, while the error of the float is below [1e-12]; from
      1024 on the program raises.
    - The file common_passwords.txt is given by what opening and reading
      it yields: its lines, the exception [open] raises, or the exception
      the iteration over the open file raises.
    - The clock readings of [evaluate] ([perf_counter]) are left out. *)

From Stdlib Require Import ZArith NArith List String Ascii Bool Lia.
From Stdlib Require Import Reals Lra.
From stdpp Require Import base decidable option list gmap.

Local Open Scope Z_scope.

(** ** Strings *)

(** A Python string: its code points, in order. *)
Abbreviation str := (list N).

(** An ASCII literal of the source as a list of code points. *)
Definition lit (s : string) : str :=
  List.map N_of_ascii (list_ascii_of_string s).

(** [len(s)] *)
Definition len (s : str) : Z := Z.of_nat (List.length s).

(** [s.startswith(p)] *)
Fixpoint startswith (p s : str) : bool :=
  match p, s with
  | [], _ => true
  | _ :: _, [] => false
  | a :: p', b :: s' => N.eqb a b && startswith p' s'
  end.

(** [p in s] for two strings: [p] occurs in [s] as a contiguous substring. *)
Fixpoint contains (s p : str) : bool :=
  startswith p s ||
  match s with
  | [] => false
  | _ :: s' => contains s' p
  end.

(** [string.punctuation], the 32 ASCII punctuation characters
    (code point 34 is the double quote). *)
Definition punctuation : str :=
  lit "!" ++ [34%N] ++ lit "#$%&'()*+,-./:;<=>?@[\]^_`{|}~".

(** [c in string.punctuation] for a one-character string [c]. *)
Definition in_punctuation (c : N) : bool := bool_decide (c ∈ punctuation).

(** ** The Unicode character database of the Python runtime

    [str.islower], [str.isupper], [str.isdigit], [str.lower], [str.strip]
    and the regular-expression class [\d] consult the interpreter's Unicode
    tables, which are not part of this repository. They are taken as a
    parameter; what is fixed is their behaviour on ASCII. *)

Definition ascii_islower (c : N) : bool := ((97 <=? c) && (c <=? 122))%N.
Definition ascii_isupper (c : N) : bool := ((65 <=? c) && (c <=? 90))%N.
Definition ascii_isdigit (c : N) : bool := ((48 <=? c) && (c <=? 57))%N.
Definition ascii_isspace (c : N) : bool :=
  (((9 <=? c) && (c <=? 13)) || ((28 <=? c) && (c <=? 32)))%N.
Definition ascii_lower (c : N) : N :=
  if ascii_isupper c then (c + 32)%N else c.

Definition is_ascii (s : str) : Prop := Forall (fun c => (c < 128)%N) s.

Class UnicodeData := {
  (** [c.islower()], [c.isupper()], [c.isdigit()] for a one-character string *)
  islower : N -> bool;
  isupper : N -> bool;
  isdigit : N -> bool;
  (** the class [\d] of [re] on a [str] pattern (Unicode decimal digits) *)
  isdecimal : N -> bool;
  (** [c.isspace()], the characters removed by [str.strip()] *)
  isspace : N -> bool;
  (** [s.lower()] (a function of the whole string: a lower-cased character
      may depend on its context and may be more than one code point) *)
  lower : str -> str;
  islower_ascii c : (c < 128)%N -> islower c = ascii_islower c;
  isupper_ascii c : (c < 128)%N -> isupper c = ascii_isupper c;
  isdigit_ascii c : (c < 128)%N -> isdigit c = ascii_isdigit c;
  isdecimal_ascii c : (c < 128)%N -> isdecimal c = ascii_isdigit c;
  isspace_ascii c : (c < 128)%N -> isspace c = ascii_isspace c;
  lower_ascii s : is_ascii s -> lower s = List.map ascii_lower s
}.

(** The tables on the first two blocks, Basic Latin and Latin-1 Supplement
    (U+0000 to U+00FF), as CPython has them. Code points above U+00FF are
    given no property here: this instance is used on inputs from those two
    blocks only. *)
Module Latin1.

Definition in_range (lo hi c : N) : bool := ((lo <=? c) && (c <=? hi))%N.

(** a-z, the ordinal indicators U+00AA and U+00BA, the micro sign U+00B5,
    U+00DF to U+00F6 and U+00F8 to U+00FF. *)
Definition islower (c : N) : bool :=
  in_range 97 122 c || N.eqb c 170 || N.eqb c 181 || N.eqb c 186 ||
  in_range 223 246 c || in_range 248 255 c.

(** A-Z, U+00C0 to U+00D6 and U+00D8 to U+00DE. *)
Definition isupper (c : N) : bool :=
  in_range 65 90 c || in_range 192 214 c || in_range 216 222 c.

(** 0-9 and the superscripts U+00B2, U+00B3, U+00B9. *)
Definition isdigit (c : N) : bool :=
  in_range 48 57 c || N.eqb c 178 || N.eqb c 179 || N.eqb c 185.

Definition isdecimal (c : N) : bool := in_range 48 57 c.

(** Tab to carriage return, the separators U+001C to U+001F, space,
    next line U+0085 and no-break space U+00A0. *)
Definition isspace (c : N) : bool :=
  in_range 9 13 c || in_range 28 32 c || N.eqb c 133 || N.eqb c 160.

Definition lower_char (c : N) : N :=
  if isupper c then (c + 32)%N else c.

Definition lower (s : str) : str := List.map lower_char s.

End Latin1.


(** ** Exceptions, the instance and the method monad *)

(** The classes of OSError [open] and the reads on the open file can raise:
    the three subclasses named, and [OtherOSError] for an OSError of any
    other class (errno EIO while reading, EMFILE on opening, ...). *)
Inductive OSError :=
| FileNotFoundError
| PermissionError
| IsADirectoryError
| OtherOSError.

(** The exceptions the program can raise. UnicodeDecodeError is raised by
    the iteration over the file when its bytes are not text in the encoding
    of the locale; it is a ValueError, not an OSError. *)
Inductive Exn :=
| OSErr (e : OSError)
| UnicodeDecodeError
| OverflowError
| IndexError.

(** The attributes [__init__] sets on [self] (lines 9-13). *)
Record Checker := mkChecker {
  self_password : str;
  self_length : Z;
  self_score : Z;
  self_feedback : list string;
  self_common_passwords : gset str
}.

(** The instance [__init__] leaves, given the set line 13 loaded. *)
Definition new_checker (password : str) (common : gset str) : Checker :=
  mkChecker password (len password) 0 [] common.

(** A method body: it reads and mutates [self], and returns or raises.
    A mutation made before an exception is raised stays. *)
Definition M (A : Type) : Type := Checker -> (Exn + A) * Checker.

#[global] Instance M_ret : MRet M := fun A (x : A) st => (inr x, st).

#[global] Instance M_bind : MBind M := fun A B (f : A -> M B) (m : M A) st =>
  match m st with
  | (inl e, st') => (inl e, st')
  | (inr a, st') => f a st'
  end.

Definition raise {A} (e : Exn) : M A := fun st => (inl e, st).

(** Reading [self]. *)
Definition get_self : M Checker := fun st => (inr st, st).

(** [self.score = v] *)
Definition set_score (v : Z) : M unit := fun st =>
  (inr tt, mkChecker (self_password st) (self_length st) v
                     (self_feedback st) (self_common_passwords st)).

(** [self.feedback.append(msg)]: the list object is extended in place. *)
Definition feedback_append (msg : string) : M unit := fun st =>
  (inr tt, mkChecker (self_password st) (self_length st) (self_score st)
                     (self_feedback st ++ [msg]) (self_common_passwords st)).

(** [self.score += m()]: the attribute is read, the call made, the sum
    stored. *)
Definition iadd_score (m : M Z) : M unit :=
  st ← get_self;
  v ← m;
  set_score (self_score st + v).

(** [any(f(c) for c in s)] *)
Definition any {A} (f : A -> bool) (s : list A) : bool := existsb f s.

(** [sum([b1, ..., bn])] on booleans: [True] counts 1. *)
Definition sum (bs : list bool) : Z :=
  fold_left (fun acc (b : bool) => acc + Z.b2z b) bs 0.

(** [l[i]]: a negative index counts from the end, and an index outside
    [-len(l) .. len(l)-1] raises [IndexError]. *)
Definition getitem {A} (l : list A) (i : Z) : Exn + A :=
  let n := Z.of_nat (List.length l) in
  let j := if i <? 0 then i + n else i in
  if (j <? 0) || (n <=? j) then inl IndexError
  else match nth_error l (Z.to_nat j) with
       | Some x => inr x
       | None => inl IndexError
       end.

Definition lift {A} (r : Exn + A) : M A := fun st => (r, st).

(** ** Entropy *)

(** The value [calculate_entropy] returns: the int [0], or the float
    [length * charset_size ** 0.5], kept exact as the real number
    [length * sqrt charset_size]. *)
Inductive Entropy :=
| Zero
| Surd (length charset_size : Z).

(** The square of the entropy, an integer. *)
Definition entropy_sq (e : Entropy) : Z :=
  match e with
  | Zero => 0
  | Surd l c => l * l * c
  end.

(** [int(entropy / 20)]: the entropy is not negative, so truncation is the
    floor, and [floor (sqrt n / 20) = floor (sqrt n) / 20] on integers. *)
Definition int_div20 (e : Entropy) : Z := Z.sqrt (entropy_sq e) / 20.

(** [2 ** entropy] raises [OverflowError] when the result exceeds the
    largest float, that is from [entropy = 1024.0] on. *)
Definition pow2_overflows (e : Entropy) : bool := 1024 * 1024 <=? entropy_sq e.

(** A float with one decimal, given in tenths: [Tenths 408] is [40.8]. *)
Inductive Decimal := Tenths (n : Z).

(** [round(entropy, 1)]: the nearest multiple of one tenth. With [n] the
    square of the entropy, [floor (20 * sqrt n) = floor (sqrt (400 * n))],
    and the nearest integer to [x / 2] is [floor ((floor x + 1) / 2)]; a
    tie would need [400 * n] to be an odd square. *)
Definition round1 (e : Entropy) : Decimal :=
  Tenths ((Z.sqrt (400 * entropy_sq e) + 1) / 2).

(** The text [estimate_crack_time] returns. It is a function of the entropy
    alone, and is kept as the entropy it is the text of; [bucket] below
    gives its unit. The count printed before the unit is the integer part
    of a float and is not computed. *)
Inductive CrackTime := crack_time_of (e : Entropy).

(** The entropy as a real number, as line 67 writes it. *)
Definition entropy_R (e : Entropy) : R :=
  match e with
  | Zero => 0%R
  | Surd l c => (IZR l * sqrt (IZR c))%R
  end.

(** The entropies [calculate_entropy] can return: a length and a charset
    size are not negative. *)
Definition well_formed (e : Entropy) : Prop :=
  match e with
  | Zero => True
  | Surd l c => 0 <= l /\ 0 <= c
  end.

(** [seconds] of line 71, in exact arithmetic. *)
Definition seconds_R (e : Entropy) : R :=
  (Rpower 2 (entropy_R e) / 2 / 1e12)%R.

(** The four branches of lines 72-79. *)
Inductive Bucket := LessThanAMinute | Minutes | Hours | Days.

Definition bucket (t : CrackTime) : Bucket :=
  match t with
  | crack_time_of e =>
      if Rlt_dec (seconds_R e) 60 then LessThanAMinute
      else if Rlt_dec (seconds_R e) 3600 then Minutes
      else if Rlt_dec (seconds_R e) 86400 then Hours
      else Days
  end.

(** A reference to a Python list object. The one list the program mutates
    is the one [__init__] binds to [self.feedback]; [evaluate] returns that
    same object (line 101), not a copy of it. *)
Inductive ListRef := self_feedback_ref.

(** Reading a list reference in a given state of the instance. *)
Definition deref (st : Checker) (r : ListRef) : list string :=
  match r with self_feedback_ref => self_feedback st end.

(** The dict [evaluate] returns (lines 96-103), without ["time_taken"],
    which is a reading of the clock. *)
Record EvaluationResult := mkResult {
  rating : string;
  score : Z;
  entropy : Decimal;
  crack_time : CrackTime;
  feedback : ListRef
}.

(** ** The class [PasswordStrengthChecker] *)

(** What goes wrong while the open file is read: the bytes do not decode,
    or a read fails. *)
Inductive ReadError :=
| DecodeFailed
| ReadOSError (e : OSError).

(** The exception the iteration raises then. *)
Definition read_exn (e : ReadError) : Exn :=
  match e with
  | DecodeFailed => UnicodeDecodeError
  | ReadOSError e => OSErr e
  end.

(** What lines 17-18 find: [open('common_passwords.txt', 'r')] fails
    ([OpenFailed]); or the file opens and the iteration over it yields all
    its lines ([Opened]); or the file opens and the iteration raises before
    the end ([ReadFailed]: the lines read until then are lost with the
    generator, no set is built). *)
Inductive open_result :=
| Opened (lines : list str)
| OpenFailed (e : OSError)
| ReadFailed (e : ReadError).

(** The set of the [except] branch of [load_common_passwords] (line 20). *)
Definition fallback_passwords : gset str :=
  {[ lit "password"; lit "123456"; lit "qwerty";
     lit "abc123"; lit "admin"; lit "welcome" ]}.

Section PasswordStrengthChecker.

Context `{UnicodeData}.

(** [s.lstrip()] and [s.strip()] *)
Fixpoint lstrip (s : str) : str :=
  match s with
  | c :: s' => if isspace c then lstrip s' else s
  | [] => []
  end.

Definition strip (s : str) : str := rev (lstrip (rev (lstrip s))).

(** Lines 17-18, the body of the [try]: the set of the stripped lines, or
    the exception [open] or the iteration raised. *)
Definition read_common_passwords (fs : open_result) : Exn + gset str :=
  match fs with
  | Opened lines => inr (list_to_set (List.map strip lines))
  | OpenFailed e => inl (OSErr e)
  | ReadFailed e => inl (read_exn e)
  end.

(** Lines 15-20. The handler of line 19 catches [FileNotFoundError] only,
    wherever in the body it was raised; every other exception leaves the
    method. *)
Definition load_common_passwords (fs : open_result) : Exn + gset str :=
  match read_common_passwords fs with
  | inl (OSErr FileNotFoundError) => inr fallback_passwords
  | r => r
  end.

(** [PasswordStrengthChecker(password)], lines 8-13. *)
Definition init (fs : open_result) (password : str) : Exn + Checker :=
  match load_common_passwords fs with
  | inl e => inl e
  | inr common => inr (new_checker password common)
  end.

(** Lines 22-34. *)
Definition check_length : M Z :=
  st ← get_self;
  if self_length st <? 8 then
    feedback_append "Password is too short (min 8 characters)." ;; mret 0
  else if self_length st <? 12 then
    feedback_append "Length is okay but could be longer." ;; mret 2
  else if self_length st <? 16 then
    feedback_append "Good password length." ;; mret 3
  else
    feedback_append "Excellent password length." ;; mret 4.

(** Lines 36-45. *)
Definition check_character_types : M Z :=
  st ← get_self;
  let types := sum [ any islower (self_password st);
                     any isupper (self_password st);
                     any isdigit (self_password st);
                     any in_punctuation (self_password st) ] in
  (if types <? 3 then
     feedback_append "Use a mix of upper, lower, digits, and special chars."
   else mret tt) ;;
  mret types.

(** Lines 47-53. *)
Definition check_common_patterns : M Z :=
  st ← get_self;
  let bad_patterns := [lit "123"; lit "abc"; lit "qwerty"] in
  let lowered := lower (self_password st) in
  if any (fun pat => contains lowered pat) bad_patterns then
    feedback_append "Avoid common patterns like '123', 'abc', 'qwerty'." ;;
    mret (-2)
  else mret 0.

(** Lines 55-59. *)
Definition check_common_password : M Z :=
  st ← get_self;
  if bool_decide (lower (self_password st) ∈ self_common_passwords st) then
    feedback_append "This password is too common!" ;; mret (-2)
  else mret 0.

(** Lines 61-67. *)
Definition calculate_entropy : M Entropy :=
  st ← get_self;
  let charset_size := 0 in
  let charset_size :=
    charset_size + (if any islower (self_password st) then 26 else 0) in
  let charset_size :=
    charset_size + (if any isupper (self_password st) then 26 else 0) in
  let charset_size :=
    charset_size + (if any isdigit (self_password st) then 10 else 0) in
  let charset_size :=
    charset_size + (if any in_punctuation (self_password st) then 32 else 0) in
  mret (if charset_size =? 0 then Zero else Surd (self_length st) charset_size).

(** Lines 69-79. The power of line 70 is where the method can raise; the
    divisions and comparisons after it are total. *)
Definition estimate_crack_time (entropy : Entropy) : M CrackTime :=
  if pow2_overflows entropy then raise OverflowError
  else mret (crack_time_of entropy).

(** Lines 81-103. *)
Definition evaluate : M EvaluationResult :=
  iadd_score check_length ;;
  iadd_score check_character_types ;;
  iadd_score check_common_patterns ;;
  iadd_score check_common_password ;;
  entropy ← calculate_entropy;
  iadd_score (mret (Z.min (int_div20 entropy) 5)) ;;
  let rating :=
    ["Very Weak"; "Weak"; "Moderate"; "Strong"; "Very Strong"]%string in
  st ← get_self;
  final_rating ← lift (getitem rating (Z.min (self_score st / 3) 4));
  crack_time ← estimate_crack_time entropy;
  mret (mkResult final_rating (self_score st) (round1 entropy) crack_time
                 self_feedback_ref).

(** ** [simple_strength_check] (lines 105-118) *)

(** [re.search(r"[...]", s)] for a pattern that is one character class. *)
Definition re_search (class : N -> bool) (s : str) : bool := existsb class s.

(** The class of line 114: twenty characters, the double quote (34) among
    them; the backslash before it in the pattern only escapes it. *)
Definition special_characters : str :=
  lit "!@#$%^&*(),.?" ++ [34%N] ++ lit ":{}|<>".

Definition simple_strength_check (password : str) : string :=
  if len password <? 8 then "Weak"
  else if negb (re_search (fun c => (97 <=? c)%N && (c <=? 122)%N) password)
  then "Weak"
  else if negb (re_search (fun c => (65 <=? c)%N && (c <=? 90)%N) password)
  then "Weak"
  else if negb (re_search isdecimal password) then "Weak"
  else if negb (re_search (fun c => bool_decide (c ∈ special_characters))
                          password)
  then "Weak"
  else if len password <? 12 then "Moderate"
  else "Strong".

End PasswordStrengthChecker.

(** ** What one call of each method returns and appends

    Each check reads [self.password], [self.length] and
    [self.common_passwords] only, returns a number and appends at most one
    line to [self.feedback]. The functions below give, for each check, that
    number and the lines appended; [check_length_run] and the lemmas after
    it prove that the methods compute exactly these. *)

Section Readings.

Context `{UnicodeData}.

Definition length_part (L : Z) : Z * list string :=
  if L <? 8 then (0, ["Password is too short (min 8 characters)."%string])
  else if L <? 12 then (2, ["Length is okay but could be longer."%string])
  else if L <? 16 then (3, ["Good password length."%string])
  else (4, ["Excellent password length."%string]).

Definition types_of (pw : str) : Z :=
  sum [any islower pw; any isupper pw; any isdigit pw; any in_punctuation pw].

Definition types_part (pw : str) : Z * list string :=
  (types_of pw,
   if types_of pw <? 3
   then ["Use a mix of upper, lower, digits, and special chars."%string]
   else []).

Definition has_bad_pattern (pw : str) : bool :=
  any (fun pat => contains (lower pw) pat) [lit "123"; lit "abc"; lit "qwerty"].

Definition patterns_part (pw : str) : Z * list string :=
  if has_bad_pattern pw
  then (-2, ["Avoid common patterns like '123', 'abc', 'qwerty'."%string])
  else (0, []).

Definition common_part (pw : str) (common : gset str) : Z * list string :=
  if bool_decide (lower pw ∈ common)
  then (-2, ["This password is too common!"%string])
  else (0, []).

Definition charset_size_of (pw : str) : Z :=
  (if any islower pw then 26 else 0) + (if any isupper pw then 26 else 0) +
  (if any isdigit pw then 10 else 0) + (if any in_punctuation pw then 32 else 0).

Definition entropy_of (pw : str) (L : Z) : Entropy :=
  if charset_size_of pw =? 0 then Zero else Surd L (charset_size_of pw).

(** What one call of [evaluate] adds to [self.score]. *)
Definition score_gain (st : Checker) : Z :=
  (length_part (self_length st)).1 + (types_part (self_password st)).1 +
  (patterns_part (self_password st)).1 +
  (common_part (self_password st) (self_common_passwords st)).1 +
  Z.min (int_div20 (entropy_of (self_password st) (self_length st))) 5.

(** The lines one call of [evaluate] appends to [self.feedback]. *)
Definition feedback_gain (st : Checker) : list string :=
  (length_part (self_length st)).2 ++ (types_part (self_password st)).2 ++
  (patterns_part (self_password st)).2 ++
  (common_part (self_password st) (self_common_passwords st)).2.

(** The instance after one call of [evaluate]. *)
Definition after_evaluate (st : Checker) : Checker :=
  mkChecker (self_password st) (self_length st)
            (self_score st + score_gain st)
            (self_feedback st ++ feedback_gain st)
            (self_common_passwords st).

End Readings.

(** Appending [fb] to [self.feedback], everything else unchanged. *)
Definition with_feedback (st : Checker) (fb : list string) : Checker :=
  mkChecker (self_password st) (self_length st) (self_score st)
            (self_feedback st ++ fb) (self_common_passwords st).

(** The table of line 90. *)
Definition rating_table : list string :=
  ["Very Weak"; "Weak"; "Moderate"; "Strong"; "Very Strong"]%string.

(** What [evaluate] returns, given the instance it leaves and the entropy:
    the lookup of line 91 comes first, the power of line 70 after it. *)
Definition outcome (st' : Checker) (e : Entropy) : Exn + EvaluationResult :=
  match getitem rating_table (Z.min (self_score st' / 3) 4) with
  | inl ex => inl ex
  | inr final_rating =>
      if pow2_overflows e then inl OverflowError
      else inr (mkResult final_rating (self_score st') (round1 e)
                         (crack_time_of e) self_feedback_ref)
  end.

(** ** [main] (lines 120-146)

    The terminal is modelled by what the program reads and writes: the
    lines typed, in order, and the sequence of writes. A write is the
    prompt of [input] or one [print] call; an f-string is given by its
    text and the value it interpolates, left unformatted. The lines typed
    are text, and a write succeeds: the one failure of the terminal that is
    modelled is the end of the input, on which [input] raises EOFError. The
    file common_passwords.txt is taken not to change while the program
    runs. *)

(** The values the f-strings of [main] interpolate. *)
Inductive Value :=
| VStr (s : string)
| VInt (n : Z)
| VDecimal (d : Decimal)
| VCrackTime (t : CrackTime)
| VClock.

(** One write to the terminal. *)
Inductive Output :=
| Prompt (text : string)
| Print (text : string)
| PrintF (before : string) (v : Value) (after : string).

(** How [main] ends: it returns, or an exception leaves it; [input] raises
    EOFError when no line is left. *)
Inductive Exit :=
| Returned
| Uncaught (e : Exn)
| UncaughtEOFError.

(** Lines 135-146, the prints of one pass through the loop. *)
Definition report (result : EvaluationResult) (feedback_lines : list string)
    (simple_result : string) : list Output :=
  [ Print "
--- Detailed Evaluation ---";
    PrintF "Rating: " (VStr (rating result)) EmptyString;
    PrintF "Score: " (VInt (score result)) "/15";
    PrintF "Entropy: " (VDecimal (entropy result)) " bits";
    PrintF "Estimated Crack Time: " (VCrackTime (crack_time result))
           EmptyString;
    Print "Feedback:" ] ++
  List.map (fun fb => PrintF "- " (VStr fb) EmptyString) feedback_lines ++
  [ PrintF "Evaluation Time: " VClock " seconds";
    Print "
--- Quick Strength Check ---";
    PrintF "Simple Password Strength: " (VStr simple_result) "
" ].

Section Main.

Context `{UnicodeData}.

(** Lines 122-146, the loop, on the lines still to be read. *)
Fixpoint main_loop (fs : open_result) (stdin : list str)
    : list Output * Exit :=
  match stdin with
  | [] => ([Prompt "Enter Password: "], UncaughtEOFError)
  | password :: rest =>
      if bool_decide (lower password = lit "quit") then
        ([ Prompt "Enter Password: ";
           Print "
Thank you for using Password Strength Checker!" ], Returned)
      else
        match init fs password with
        | inl e => ([Prompt "Enter Password: "], Uncaught e)
        | inr checker =>
            match evaluate checker with
            | (inl e, _) => ([Prompt "Enter Password: "], Uncaught e)
            | (inr result, checker') =>
                let simple_result := simple_strength_check password in
                let '(out, exit) := main_loop fs rest in
                (Prompt "Enter Password: " ::
                 report result (deref checker' (feedback result))
                        simple_result ++ out,
                 exit)
            end
        end
  end.

(** Lines 120-146. *)
Definition main (fs : open_result) (stdin : list str) : list Output * Exit :=
  let '(out, exit) := main_loop fs stdin in
  (Print "Password Strength Checker
(Type 'quit' to exit)
" :: out, exit).

(** What holds of every write of a session ([main_writes_are_bounded]):
    an integer printed is a score between -4 and 13, a string printed after
    "Rating: " is a label of the table, and a string printed after
    "Simple Password Strength: " is one of the three quick answers. *)
Definition output_ok (o : Output) : Prop :=
  match o with
  | PrintF before (VInt n) _ => -4 <= n <= 13
  | PrintF before (VStr s) _ =>
      (before = "Rating: "%string -> In s rating_table) /\
      (before = "Simple Password Strength: "%string ->
       In s ["Weak"; "Moderate"; "Strong"]%string)
  | _ => True
  end.

(** The instance after [n] calls of [evaluate] on it, whether they returned
    or raised. *)
Fixpoint evaluate_times (n : nat) (st : Checker) : Checker :=
  match n with
  | O => st
  | S k => (evaluate (evaluate_times k st)).2
  end.

End Main.

(** * Properties *)

(** ** The Latin-1 tables satisfy the ASCII laws *)

Module Latin1Facts.
Import Latin1.

Ltac ascii_case :=
  unfold islower, isupper, isdigit, isdecimal, isspace, in_range,
         ascii_islower, ascii_isupper, ascii_isdigit, ascii_isspace;
  repeat match goal with
         | |- context [N.leb ?a ?b] => destruct (N.leb_spec a b)
         | |- context [N.eqb ?a ?b] => destruct (N.eqb_spec a b)
         end; simpl; try reflexivity; lia.

Lemma islower_below_128 c : (c < 128)%N -> islower c = ascii_islower c.
Proof. intros Hc. ascii_case. Qed.

Lemma isupper_below_128 c : (c < 128)%N -> isupper c = ascii_isupper c.
Proof. intros Hc. ascii_case. Qed.

Lemma isdigit_below_128 c : (c < 128)%N -> isdigit c = ascii_isdigit c.
Proof. intros Hc. ascii_case. Qed.

Lemma isdecimal_below_128 c : (c < 128)%N -> isdecimal c = ascii_isdigit c.
Proof. intros Hc. ascii_case. Qed.

Lemma isspace_below_128 c : (c < 128)%N -> isspace c = ascii_isspace c.
Proof. intros Hc. ascii_case. Qed.

Lemma lower_of_ascii s : is_ascii s -> lower s = List.map ascii_lower s.
Proof.
  unfold lower. induction 1 as [|c s Hc _ IH]; simpl.
  - reflexivity.
  - rewrite IH. f_equal. unfold lower_char, ascii_lower.
    now rewrite isupper_below_128.
Qed.

End Latin1Facts.

Definition latin1 : UnicodeData := {|
  islower := Latin1.islower;
  isupper := Latin1.isupper;
  isdigit := Latin1.isdigit;
  isdecimal := Latin1.isdecimal;
  isspace := Latin1.isspace;
  lower := Latin1.lower;
  islower_ascii := Latin1Facts.islower_below_128;
  isupper_ascii := Latin1Facts.isupper_below_128;
  isdigit_ascii := Latin1Facts.isdigit_below_128;
  isdecimal_ascii := Latin1Facts.isdecimal_below_128;
  isspace_ascii := Latin1Facts.isspace_below_128;
  lower_ascii := Latin1Facts.lower_of_ascii
|}.

(** ** The methods compute their readings *)

Section Runs.

Context `{UnicodeData}.

Lemma with_feedback_nil st : with_feedback st [] = st.
Proof. destruct st. unfold with_feedback. simpl. now rewrite app_nil_r. Qed.

Lemma check_length_run st :
  check_length st =
  (inr (length_part (self_length st)).1,
   with_feedback st (length_part (self_length st)).2).
Proof.
  unfold check_length, length_part, with_feedback.
  unfold mbind, M_bind, get_self, feedback_append, mret, M_ret.
  destruct (self_length st <? 8); [reflexivity|].
  destruct (self_length st <? 12); [reflexivity|].
  destruct (self_length st <? 16); reflexivity.
Qed.

Lemma check_character_types_run st :
  check_character_types st =
  (inr (types_part (self_password st)).1,
   with_feedback st (types_part (self_password st)).2).
Proof.
  unfold check_character_types, types_part.
  unfold mbind, M_bind, get_self, feedback_append, mret, M_ret.
  fold (types_of (self_password st)).
  destruct (types_of (self_password st) <? 3); simpl.
  - reflexivity.
  - now rewrite with_feedback_nil.
Qed.

Lemma check_common_patterns_run st :
  check_common_patterns st =
  (inr (patterns_part (self_password st)).1,
   with_feedback st (patterns_part (self_password st)).2).
Proof.
  unfold check_common_patterns, patterns_part.
  unfold mbind, M_bind, get_self, feedback_append, mret, M_ret.
  fold (has_bad_pattern (self_password st)).
  destruct (has_bad_pattern (self_password st)); simpl.
  - reflexivity.
  - now rewrite with_feedback_nil.
Qed.

Lemma check_common_password_run st :
  check_common_password st =
  (inr (common_part (self_password st) (self_common_passwords st)).1,
   with_feedback st (common_part (self_password st) (self_common_passwords st)).2).
Proof.
  unfold check_common_password, common_part.
  unfold mbind, M_bind, get_self, feedback_append, mret, M_ret.
  destruct (bool_decide _); simpl.
  - reflexivity.
  - now rewrite with_feedback_nil.
Qed.

Lemma calculate_entropy_run st :
  calculate_entropy st =
  (inr (entropy_of (self_password st) (self_length st)), st).
Proof. reflexivity. Qed.

End Runs.

(** Reduces the projections of an instance given by its five attributes. *)
Ltac project_self :=
  cbn [with_feedback set_score mret M_ret self_score self_password
       self_length self_feedback self_common_passwords].

Section EvaluateRun.

Context `{UnicodeData}.

Lemma evaluate_run st :
  evaluate st =
  (outcome (after_evaluate st) (entropy_of (self_password st) (self_length st)),
   after_evaluate st).
Proof.
  destruct st as [pw L sc fb cps].
  unfold evaluate, iadd_score.
  unfold mbind, M_bind, get_self.
  rewrite check_length_run. project_self.
  rewrite check_character_types_run. project_self.
  rewrite check_common_patterns_run. project_self.
  rewrite check_common_password_run. project_self.
  rewrite calculate_entropy_run. project_self.
  unfold after_evaluate, score_gain, feedback_gain, outcome, rating_table.
  project_self.
  rewrite !Z.add_assoc, !app_assoc.
  unfold lift, estimate_crack_time, raise.
  destruct (getitem _ _) as [ex|final_rating]; [reflexivity|].
  destruct (pow2_overflows _); reflexivity.
Qed.

End EvaluateRun.

(** ** Bounds on the readings *)

Section Bounds.

Context `{UnicodeData}.

Lemma length_part_cases L :
  (L < 8 /\ (length_part L).1 = 0) \/
  (8 <= L < 12 /\ (length_part L).1 = 2) \/
  (12 <= L < 16 /\ (length_part L).1 = 3) \/
  (16 <= L /\ (length_part L).1 = 4).
Proof.
  unfold length_part.
  destruct (Z.ltb_spec L 8); [left; split; [lia|reflexivity]|right].
  destruct (Z.ltb_spec L 12); [left; split; [lia|reflexivity]|right].
  destruct (Z.ltb_spec L 16); [left|right]; (split; [lia|reflexivity]).
Qed.

Lemma length_part_bounds L : 0 <= (length_part L).1 <= 4.
Proof. destruct (length_part_cases L) as [[_ ->]|[[_ ->]|[[_ ->]|[_ ->]]]]; lia. Qed.

(** [check_length] always appends exactly one line. *)
Lemma length_part_one_line L : exists msg, (length_part L).2 = [msg].
Proof.
  unfold length_part.
  destruct (L <? 8); [eauto|].
  destruct (L <? 12); [eauto|].
  destruct (L <? 16); eauto.
Qed.

Lemma types_of_bounds pw : 0 <= types_of pw <= 4.
Proof.
  unfold types_of, sum. simpl.
  destruct (any islower pw), (any isupper pw), (any isdigit pw),
           (any in_punctuation pw); simpl; lia.
Qed.

Lemma patterns_part_cases pw :
  (patterns_part pw).1 = 0 \/ (patterns_part pw).1 = -2.
Proof. unfold patterns_part. destruct (has_bad_pattern pw); auto. Qed.

Lemma common_part_cases pw common :
  (common_part pw common).1 = 0 \/ (common_part pw common).1 = -2.
Proof. unfold common_part. destruct (bool_decide _); auto. Qed.

Lemma int_div20_nonneg e : 0 <= int_div20 e.
Proof.
  unfold int_div20. apply Z.div_pos; [apply Z.sqrt_nonneg | lia].
Qed.

Lemma bonus_bounds e : 0 <= Z.min (int_div20 e) 5 <= 5.
Proof. pose proof (int_div20_nonneg e). lia. Qed.

Lemma score_gain_bounds st : -4 <= score_gain st <= 17.
Proof.
  unfold score_gain.
  pose proof (length_part_bounds (self_length st)).
  pose proof (types_of_bounds (self_password st)).
  pose proof (bonus_bounds (entropy_of (self_password st) (self_length st))).
  destruct (patterns_part_cases (self_password st)) as [-> | ->],
           (common_part_cases (self_password st) (self_common_passwords st))
             as [-> | ->];
    unfold types_part; simpl; lia.
Qed.

End Bounds.

(** ** Indexing the rating table *)

(** Every index from [-5] to [4] selects a label; the negative ones count
    from the end of the table. *)
Lemma getitem_rating_table i :
  -5 <= i <= 4 ->
  exists label, getitem rating_table i = inr label /\ In label rating_table.
Proof.
  intros Hi.
  assert (Hcases : i = -5 \/ i = -4 \/ i = -3 \/ i = -2 \/ i = -1 \/
                   i = 0 \/ i = 1 \/ i = 2 \/ i = 3 \/ i = 4) by lia.
  destruct Hcases as [->|[->|[->|[->|[->|[->|[->|[->|[->| ->]]]]]]]]];
    eexists; (split; [reflexivity | simpl; tauto]).
Qed.

Lemma getitem_rating_table_out i :
  i < -5 \/ 4 < i -> getitem rating_table i = inl IndexError.
Proof.
  intros Hi. unfold getitem, rating_table. simpl List.length.
  destruct (Z.ltb_spec i 0).
  - destruct (Z.ltb_spec (i + Z.of_nat 5) 0); [reflexivity | lia].
  - destruct (Z.ltb_spec i 0); [lia|].
    destruct (Z.leb_spec (Z.of_nat 5) i); [reflexivity | lia].
Qed.

(** ** The entropy as a real number

    The integer formulas of [int_div20], [round1] and [pow2_overflows] are
    those of the real number [length * sqrt charset_size]. *)

Module EntropyReal.

Local Open Scope R_scope.

Lemma entropy_R_nonneg e : well_formed e -> 0 <= entropy_R e.
Proof.
  destruct e as [|l c]; simpl.
  - intros _. lra.
  - intros [Hl _]. apply Rmult_le_pos; [now apply IZR_le | apply sqrt_pos].
Qed.

Lemma entropy_R_is_sqrt e :
  well_formed e -> entropy_R e = sqrt (IZR (entropy_sq e)).
Proof.
  destruct e as [|l c]; simpl.
  - intros _. now rewrite sqrt_0.
  - intros [Hl Hc].
    rewrite !mult_IZR, sqrt_mult_alt.
    + rewrite sqrt_square; [reflexivity | now apply IZR_le].
    + apply Rmult_le_pos; now apply IZR_le.
Qed.

(** [Z.sqrt] is the floor of the real square root. *)
Lemma Zsqrt_floor n :
  (0 <= n)%Z -> IZR (Z.sqrt n) <= sqrt (IZR n) < IZR (Z.sqrt n) + 1.
Proof.
  intros Hn. destruct (Z.sqrt_spec n Hn) as [Hlo Hhi].
  pose proof (Z.sqrt_nonneg n) as Hs.
  split.
  - rewrite <- (sqrt_square (IZR (Z.sqrt n))) by now apply IZR_le.
    apply sqrt_le_1_alt. rewrite <- mult_IZR. now apply IZR_le.
  - replace (IZR (Z.sqrt n) + 1) with (IZR (Z.succ (Z.sqrt n)))
      by (rewrite succ_IZR; reflexivity).
    rewrite <- (sqrt_square (IZR (Z.succ (Z.sqrt n))))
      by (apply IZR_le; lia).
    apply sqrt_lt_1_alt. split; [now apply IZR_le|].
    rewrite <- mult_IZR. now apply IZR_lt.
Qed.

Lemma entropy_sq_nonneg e : well_formed e -> (0 <= entropy_sq e)%Z.
Proof. destruct e as [|l c]; simpl; [lia | nia]. Qed.

(** [int_div20] is the floor of [entropy / 20]. *)
Lemma int_div20_is_floor e :
  well_formed e ->
  IZR (int_div20 e) <= entropy_R e / 20 < IZR (int_div20 e) + 1.
Proof.
  intros Hwf. rewrite (entropy_R_is_sqrt e Hwf).
  pose proof (Zsqrt_floor _ (entropy_sq_nonneg e Hwf)) as [Hlo Hhi].
  unfold int_div20. set (s := Z.sqrt (entropy_sq e)) in *.
  pose proof (Z.div_mod s 20 ltac:(lia)) as Hdm.
  pose proof (Z.mod_pos_bound s 20 ltac:(lia)) as Hmod.
  assert (H1 : IZR (20 * (s / 20)) <= IZR s) by (apply IZR_le; lia).
  assert (H2 : IZR s + 1 <= IZR (20 * (s / 20)) + 20).
  { rewrite <- (plus_IZR s 1), <- (plus_IZR _ 20). apply IZR_le. lia. }
  rewrite mult_IZR in H1, H2. lra.
Qed.

(** [pow2_overflows] holds exactly when the entropy is at least 1024. *)
Lemma pow2_overflows_iff e :
  well_formed e -> pow2_overflows e = true <-> 1024 <= entropy_R e.
Proof.
  intros Hwf. rewrite (entropy_R_is_sqrt e Hwf). unfold pow2_overflows.
  pose proof (entropy_sq_nonneg e Hwf) as Hn.
  rewrite Z.leb_le.
  replace 1024 with (sqrt (IZR (1024 * 1024))).
  2:{ rewrite mult_IZR. apply sqrt_square. lra. }
  split.
  - intros Hle. apply sqrt_le_1_alt. now apply IZR_le.
  - intros Hle. apply le_IZR. apply sqrt_le_0; [|now apply IZR_le|exact Hle].
    apply IZR_le. lia.
Qed.

(** [round1] is within half a tenth of the entropy. *)
Lemma round1_is_nearest e t :
  well_formed e -> round1 e = Tenths t ->
  IZR t - / 2 <= 10 * entropy_R e < IZR t + / 2.
Proof.
  intros Hwf Ht. injection Ht as <-.
  rewrite (entropy_R_is_sqrt e Hwf).
  pose proof (entropy_sq_nonneg e Hwf) as Hn.
  assert (Hsq : sqrt (IZR (400 * entropy_sq e)) = 20 * sqrt (IZR (entropy_sq e))).
  { rewrite mult_IZR, sqrt_mult_alt by lra.
    replace 400 with (20 * 20) by lra. rewrite sqrt_square by lra.
    reflexivity. }
  pose proof (Zsqrt_floor (400 * entropy_sq e) ltac:(lia)) as [Hlo Hhi].
  rewrite Hsq in Hlo, Hhi.
  set (u := Z.sqrt (400 * entropy_sq e)) in *.
  pose proof (Z.div_mod (u + 1) 2 ltac:(lia)) as Hdm.
  pose proof (Z.mod_pos_bound (u + 1) 2 ltac:(lia)) as Hmod.
  assert (H1 : IZR (2 * ((u + 1) / 2)) - 1 <= IZR u).
  { rewrite <- (minus_IZR _ 1). apply IZR_le. lia. }
  assert (H2 : IZR u <= IZR (2 * ((u + 1) / 2))) by (apply IZR_le; lia).
  rewrite mult_IZR in H1, H2. lra.
Qed.

End EntropyReal.

(** ** ASCII passwords do not depend on the Unicode tables *)

Lemma any_ext_in {A} (f g : A -> bool) (l : list A) :
  (forall x, In x l -> f x = g x) -> any f l = any g l.
Proof.
  unfold any. induction l as [|a l IH]; intros Hfg; simpl.
  - reflexivity.
  - rewrite (Hfg a) by (left; reflexivity).
    rewrite IH; [reflexivity|]. intros x Hx. apply Hfg. now right.
Qed.

Lemma is_ascii_In s c : is_ascii s -> In c s -> (c < 128)%N.
Proof. unfold is_ascii. rewrite List.Forall_forall. auto. Qed.

Lemma is_ascii_rev s : is_ascii s -> is_ascii (rev s).
Proof. unfold is_ascii. apply List.Forall_rev. Qed.

(** A decision procedure for [is_ascii], to discharge it on literals. *)
Lemma is_ascii_forallb s :
  forallb (fun c => (c <? 128)%N) s = true -> is_ascii s.
Proof.
  unfold is_ascii. rewrite forallb_forall, List.Forall_forall.
  intros Hall c Hc. now apply N.ltb_lt, Hall.
Qed.

Section AsciiIndependence.

Context (U1 U2 : UnicodeData).

Lemma any_islower_ascii pw :
  is_ascii pw -> any (@islower U1) pw = any (@islower U2) pw.
Proof.
  intros Hpw. apply any_ext_in. intros c Hc.
  rewrite !islower_ascii by eauto using is_ascii_In. reflexivity.
Qed.

Lemma any_isupper_ascii pw :
  is_ascii pw -> any (@isupper U1) pw = any (@isupper U2) pw.
Proof.
  intros Hpw. apply any_ext_in. intros c Hc.
  rewrite !isupper_ascii by eauto using is_ascii_In. reflexivity.
Qed.

Lemma any_isdigit_ascii pw :
  is_ascii pw -> any (@isdigit U1) pw = any (@isdigit U2) pw.
Proof.
  intros Hpw. apply any_ext_in. intros c Hc.
  rewrite !isdigit_ascii by eauto using is_ascii_In. reflexivity.
Qed.

Lemma re_search_isdecimal_ascii pw :
  is_ascii pw -> re_search (@isdecimal U1) pw = re_search (@isdecimal U2) pw.
Proof.
  intros Hpw. apply (any_ext_in (@isdecimal U1)). intros c Hc.
  rewrite !isdecimal_ascii by eauto using is_ascii_In. reflexivity.
Qed.

Lemma lower_ascii_indep pw : is_ascii pw -> @lower U1 pw = @lower U2 pw.
Proof. intros Hpw. now rewrite !lower_ascii. Qed.

Lemma lstrip_ascii s : is_ascii s -> @lstrip U1 s = @lstrip U2 s.
Proof.
  induction 1 as [|c s Hc Hs IH]; simpl.
  - reflexivity.
  - rewrite !isspace_ascii by assumption. now rewrite IH.
Qed.

Lemma lstrip_is_ascii s : is_ascii s -> is_ascii (@lstrip U2 s).
Proof.
  induction 1 as [|c s Hc Hs IH]; simpl.
  - constructor.
  - destruct (isspace c); [assumption | now constructor].
Qed.

Lemma strip_ascii s : is_ascii s -> @strip U1 s = @strip U2 s.
Proof.
  intros Hs. unfold strip. rewrite (lstrip_ascii s) by assumption.
  rewrite lstrip_ascii; [reflexivity|].
  now apply is_ascii_rev, lstrip_is_ascii.
Qed.

Lemma types_of_ascii pw : is_ascii pw -> @types_of U1 pw = @types_of U2 pw.
Proof.
  intros Hpw. unfold types_of.
  now rewrite any_islower_ascii, any_isupper_ascii, any_isdigit_ascii.
Qed.

Lemma charset_size_of_ascii pw :
  is_ascii pw -> @charset_size_of U1 pw = @charset_size_of U2 pw.
Proof.
  intros Hpw. unfold charset_size_of.
  now rewrite any_islower_ascii, any_isupper_ascii, any_isdigit_ascii.
Qed.

Lemma after_evaluate_ascii st :
  is_ascii (self_password st) ->
  @after_evaluate U1 st = @after_evaluate U2 st.
Proof.
  intros Hpw.
  unfold after_evaluate, score_gain, feedback_gain, types_part,
         patterns_part, has_bad_pattern, common_part, entropy_of.
  rewrite (types_of_ascii _ Hpw), (charset_size_of_ascii _ Hpw),
          (lower_ascii_indep _ Hpw).
  reflexivity.
Qed.

Lemma check_character_types_ascii st :
  is_ascii (self_password st) ->
  @check_character_types U1 st = @check_character_types U2 st.
Proof.
  intros Hpw. rewrite !check_character_types_run. unfold types_part.
  now rewrite (types_of_ascii _ Hpw).
Qed.

Lemma check_common_patterns_ascii st :
  is_ascii (self_password st) ->
  @check_common_patterns U1 st = @check_common_patterns U2 st.
Proof.
  intros Hpw. rewrite !check_common_patterns_run.
  unfold patterns_part, has_bad_pattern.
  now rewrite (lower_ascii_indep _ Hpw).
Qed.

Lemma check_common_password_ascii st :
  is_ascii (self_password st) ->
  @check_common_password U1 st = @check_common_password U2 st.
Proof.
  intros Hpw. rewrite !check_common_password_run. unfold common_part.
  now rewrite (lower_ascii_indep _ Hpw).
Qed.

Lemma calculate_entropy_ascii st :
  is_ascii (self_password st) ->
  @calculate_entropy U1 st = @calculate_entropy U2 st.
Proof.
  intros Hpw. rewrite !calculate_entropy_run. unfold entropy_of.
  now rewrite (charset_size_of_ascii _ Hpw).
Qed.

Lemma evaluate_ascii st :
  is_ascii (self_password st) -> @evaluate U1 st = @evaluate U2 st.
Proof.
  intros Hpw. rewrite !evaluate_run.
  rewrite (after_evaluate_ascii _ Hpw). unfold entropy_of.
  now rewrite (charset_size_of_ascii _ Hpw).
Qed.

Lemma simple_strength_check_ascii pw :
  is_ascii pw -> @simple_strength_check U1 pw = @simple_strength_check U2 pw.
Proof.
  intros Hpw. unfold simple_strength_check.
  now rewrite (re_search_isdecimal_ascii _ Hpw).
Qed.

End AsciiIndependence.

(** Discharges [is_ascii] on a literal. *)
Ltac ascii_literal := apply is_ascii_forallb; vm_compute; reflexivity.

(** ** One call of [evaluate] on a new instance *)

Section NewInstance.

Context `{UnicodeData}.

Lemma score_after_new pw common :
  self_score (after_evaluate (new_checker pw common)) =
  score_gain (new_checker pw common).
Proof. reflexivity. Qed.

(** On a new instance the index of line 91 lies between [-2] and [4], so
    the lookup succeeds; what remains is the power of line 70. *)
Lemma evaluate_new pw common :
  let st := new_checker pw common in
  let e := entropy_of pw (len pw) in
  exists label,
    In label rating_table /\
    getitem rating_table (Z.min (score_gain st / 3) 4) = inr label /\
    evaluate st =
    (if pow2_overflows e then inl OverflowError
     else inr (mkResult label (score_gain st) (round1 e) (crack_time_of e)
                        self_feedback_ref),
     after_evaluate st).
Proof.
  intros st e. subst e.
  pose proof (score_gain_bounds st) as Hs.
  destruct (getitem_rating_table (Z.min (score_gain st / 3) 4))
    as (label & Hget & Hin).
  { split; [|lia].
    apply Z.min_glb; [|lia].
    apply Z.div_le_lower_bound; lia. }
  exists label. split; [assumption|]. split; [assumption|].
  rewrite evaluate_run. unfold outcome.
  subst st. rewrite score_after_new, Hget. reflexivity.
Qed.

(** [evaluate] returns exactly when the entropy is below 1024. *)
Lemma evaluate_new_returns pw common :
  pow2_overflows (entropy_of pw (len pw)) = false ->
  exists r, (evaluate (new_checker pw common)).1 = inr r.
Proof.
  intros Hno.
  destruct (evaluate_new pw common) as (label & _ & _ & ->).
  rewrite Hno. eauto.
Qed.

Lemma evaluate_new_raises pw common :
  pow2_overflows (entropy_of pw (len pw)) = true ->
  (evaluate (new_checker pw common)).1 = inl OverflowError.
Proof.
  intros Hov.
  destruct (evaluate_new pw common) as (label & _ & _ & ->).
  now rewrite Hov.
Qed.

End NewInstance.

(** ** C1: the rating of a negative score *)

(** A score from [0] on selects the table entry at
    [min (score // 3) 4]. *)
Lemma rating_of_nonnegative_score `{UnicodeData} pw common r :
  (evaluate (new_checker pw common)).1 = inr r ->
  0 <= score r ->
  nth_error rating_table (Z.to_nat (Z.min (score r / 3) 4)) = Some (rating r).
Proof.
  intros Hr Hpos.
  destruct (evaluate_new pw common) as (label & _ & Hget & Hev).
  rewrite Hev in Hr. simpl in Hr.
  destruct (pow2_overflows _); [discriminate|].
  injection Hr as <-. simpl in *.
  unfold getitem in Hget.
  assert (Hidx : 0 <= Z.min (score_gain (new_checker pw common) / 3) 4)
    by (apply Z.min_glb; [apply Z.div_pos|]; lia).
  destruct (Z.ltb_spec (Z.min (score_gain (new_checker pw common) / 3) 4) 0);
    [lia|].
  destruct (_ || _); [discriminate|].
  destruct (nth_error _ _); [now injection Hget as -> | discriminate].
Qed.

(** A negative score selects from the end of the table: [-1] to [-3]
    give the last label and [-4] the one before it. *)
Lemma rating_of_negative_score `{UnicodeData} pw common r :
  (evaluate (new_checker pw common)).1 = inr r ->
  score r < 0 ->
  rating r = "Very Strong"%string \/ rating r = "Strong"%string.
Proof.
  intros Hr Hneg.
  destruct (evaluate_new pw common) as (label & _ & Hget & Hev).
  rewrite Hev in Hr. simpl in Hr.
  destruct (pow2_overflows _); [discriminate|].
  injection Hr as <-. simpl in *.
  pose proof (score_gain_bounds (new_checker pw common)) as Hb.
  set (s := score_gain (new_checker pw common)) in *.
  assert (Hs : s = -4 \/ s = -3 \/ s = -2 \/ s = -1) by lia.
  destruct Hs as [Hs|[Hs|[Hs|Hs]]]; rewrite Hs in Hget;
    vm_compute in Hget; injection Hget as <-; auto.
Qed.

(** C1 (the code departs from the claim): the password 123456, which is in
    the fallback set and contains the pattern 123, scores [-3]; line 91
    then reads [rating[-1]], the last entry of the table, and the rating
    returned is Very Strong where the claim says Very Weak. *)
Theorem evaluate_123456_rated_very_strong `{UnicodeData} :
  exists st r,
    init (OpenFailed FileNotFoundError) (lit "123456") = inr st /\
    (evaluate st).1 = inr r /\
    score r = -3 /\
    Z.min (score r / 3) 4 = -1 /\
    rating r = "Very Strong"%string.
Proof.
  exists (new_checker (lit "123456") fallback_passwords).
  exists (mkResult "Very Strong" (-3) (Tenths 190)
                   (crack_time_of (Surd 6 10)) self_feedback_ref).
  split; [reflexivity|].
  split; [|repeat split].
  rewrite (evaluate_ascii _ latin1) by ascii_literal.
  vm_compute. reflexivity.
Qed.

(** ** C2: the password "password" *)

(** C2 (counterexample): with the Latin-1 tables and the fallback set,
    [evaluate] on "password" returns a rating, and it is not Very Weak. *)
Lemma evaluate_password_not_very_weak :
  exists st r,
    init (H := latin1) (OpenFailed FileNotFoundError) (lit "password") = inr st /\
    (evaluate (H := latin1) st).1 = inr r /\
    rating r <> "Very Weak"%string.
Proof.
  exists (new_checker (lit "password") fallback_passwords).
  exists (mkResult "Weak" 3 (Tenths 408) (crack_time_of (Surd 8 26))
                   self_feedback_ref).
  split; [reflexivity|].
  split; [vm_compute; reflexivity | simpl; discriminate].
Qed.

(** C2 (amended): on "password" with the fallback set the common-password
    check returns [-2] and the pattern check [0]; the length gives [2], the
    one character class [1] and the entropy [8 * sqrt 26], about 40.8, a
    bonus of [2], so the score is [3] and the rating Weak. *)
Theorem evaluate_password_rated_weak `{UnicodeData} :
  exists st r,
    init (OpenFailed FileNotFoundError) (lit "password") = inr st /\
    (check_common_password st).1 = inr (-2) /\
    (check_common_patterns st).1 = inr 0 /\
    (evaluate st).1 = inr r /\
    score r = 3 /\
    rating r = "Weak"%string /\
    deref (evaluate st).2 (feedback r) =
      ["Length is okay but could be longer.";
       "Use a mix of upper, lower, digits, and special chars.";
       "This password is too common!"]%string.
Proof.
  exists (new_checker (lit "password") fallback_passwords).
  exists (mkResult "Weak" 3 (Tenths 408) (crack_time_of (Surd 8 26))
                   self_feedback_ref).
  split; [reflexivity|].
  rewrite (check_common_password_ascii _ latin1) by ascii_literal.
  rewrite (check_common_patterns_ascii _ latin1) by ascii_literal.
  rewrite (evaluate_ascii _ latin1) by ascii_literal.
  repeat split; vm_compute; reflexivity.
Qed.

(** ** C3: [evaluate] can raise *)

(** X8: every password of at least 324 characters with a character in one
    of the four classes makes line 70 overflow: its entropy is at least
    [324 * sqrt 10], above 1024. *)
Lemma evaluate_long_password_raises `{UnicodeData} pw common :
  324 <= len pw ->
  charset_size_of pw <> 0 ->
  (evaluate (new_checker pw common)).1 = inl OverflowError.
Proof.
  intros Hlen Hcs. apply evaluate_new_raises.
  unfold entropy_of. destruct (Z.eqb_spec (charset_size_of pw) 0); [lia|].
  unfold pow2_overflows, entropy_sq. apply Z.leb_le.
  assert (10 <= charset_size_of pw).
  { unfold charset_size_of in *.
    destruct (any islower pw), (any isupper pw), (any isdigit pw),
             (any in_punctuation pw); simpl in *; lia. }
  nia.
Qed.

(** X9: every password of at most 105 characters is evaluated without an
    exception: its entropy is at most [105 * sqrt 94], below 1024. *)
Lemma evaluate_short_password_returns `{UnicodeData} pw common :
  len pw <= 105 ->
  exists r, (evaluate (new_checker pw common)).1 = inr r.
Proof.
  intros Hlen. apply evaluate_new_returns.
  unfold entropy_of. destruct (charset_size_of pw =? 0); [reflexivity|].
  unfold pow2_overflows, entropy_sq. apply Z.leb_gt.
  assert (0 <= charset_size_of pw <= 94).
  { unfold charset_size_of.
    destruct (any islower pw), (any isupper pw), (any isdigit pw),
             (any in_punctuation pw); simpl; lia. }
  assert (0 <= len pw) by (unfold len; lia).
  nia.
Qed.

(** C3 (the code departs from the claim): on a password of 201 letters a
    the entropy is [201 * sqrt 26], about 1024.9; [2 ** entropy] on line 70
    overflows and [evaluate] raises OverflowError instead of returning a
    result, whatever the common-password set. *)
Theorem evaluate_201_letters_raises `{UnicodeData} common :
  len (repeat 97%N 201) = 201 /\
  (calculate_entropy (new_checker (repeat 97%N 201) common)).1
    = inr (Surd 201 26) /\
  (evaluate (new_checker (repeat 97%N 201) common)).1 = inl OverflowError.
Proof.
  assert (Hcs : charset_size_of (repeat 97%N 201) = 26).
  { rewrite (charset_size_of_ascii _ latin1) by ascii_literal.
    vm_compute. reflexivity. }
  split; [reflexivity|]. split.
  - rewrite calculate_entropy_run. unfold new_checker.
    cbn [fst self_password self_length]. unfold entropy_of.
    rewrite Hcs. reflexivity.
  - apply evaluate_new_raises. unfold entropy_of. rewrite Hcs.
    vm_compute. reflexivity.
Qed.

(** ** C4: which characters count toward a class *)

(** [string.punctuation] holds ASCII characters only. *)
Lemma in_punctuation_below_128 c : in_punctuation c = true -> (c < 128)%N.
Proof.
  unfold in_punctuation. intros Hc.
  apply bool_decide_eq_true, list_elem_of_In in Hc.
  vm_compute in Hc.
  repeat (destruct Hc as [<- | Hc]; [reflexivity|]).
  contradiction.
Qed.

Lemma in_punctuation_non_ascii c : (128 <= c)%N -> in_punctuation c = false.
Proof.
  intros Hc. destruct (in_punctuation c) eqn:Hp; [|reflexivity].
  apply in_punctuation_below_128 in Hp. lia.
Qed.

Lemma any_false {A} (f : A -> bool) (l : list A) :
  (forall x, In x l -> f x = false) -> any f l = false.
Proof.
  intros Hf. unfold any. induction l as [|a l IH]; simpl.
  - reflexivity.
  - rewrite (Hf a) by (left; reflexivity). simpl.
    apply IH. intros x Hx. apply Hf. now right.
Qed.

Lemma any_false_iff {A} (f : A -> bool) (l : list A) :
  any f l = false <-> forall x, In x l -> f x = false.
Proof.
  split; [|apply any_false].
  unfold any. induction l as [|a l IH]; simpl; intros Hany x Hx.
  - contradiction.
  - apply orb_false_iff in Hany as [Ha Hl].
    destruct Hx as [<- | Hx]; [exact Ha | now apply IH].
Qed.

Lemma any_true_iff {A} (f : A -> bool) (l : list A) :
  any f l = true <-> exists x, In x l /\ f x = true.
Proof. unfold any. apply existsb_exists. Qed.

Lemma any_true_intro {A} (f : A -> bool) (l : list A) x :
  In x l -> f x = true -> any f l = true.
Proof. intros Hin Hf. apply any_true_iff. now exists x. Qed.

Lemma types_of_eq `{UnicodeData} pw :
  types_of pw =
  Z.b2z (any islower pw) + Z.b2z (any isupper pw) +
  Z.b2z (any isdigit pw) + Z.b2z (any in_punctuation pw).
Proof. unfold types_of, sum. cbn [fold_left]. lia. Qed.

Lemma charset_size_of_eq `{UnicodeData} pw :
  charset_size_of pw =
  26 * Z.b2z (any islower pw) + 26 * Z.b2z (any isupper pw) +
  10 * Z.b2z (any isdigit pw) + 32 * Z.b2z (any in_punctuation pw).
Proof.
  unfold charset_size_of.
  destruct (any islower pw), (any isupper pw), (any isdigit pw),
           (any in_punctuation pw); reflexivity.
Qed.

(** C4 (counterexample): with the Latin-1 tables, the one-character password
    U+00E9 (e with acute accent) is not ASCII, yet [str.islower] holds of it:
    the character-class check returns [1] and the entropy is [1 * sqrt 26],
    not zero. *)
Lemma e_acute_counts_as_lowercase :
  Forall (fun c => (128 <= c)%N) [233%N] /\
  (check_character_types (H := latin1)
     (new_checker [233%N] fallback_passwords)).1 = inr 1 /\
  (calculate_entropy (H := latin1)
     (new_checker [233%N] fallback_passwords)).1 = inr (Surd 1 26).
Proof.
  split.
  - constructor; [lia | constructor].
  - split; vm_compute; reflexivity.
Qed.

(** C4 (amended): punctuation is ASCII-only, and the other three classes are
    those of [str.islower], [str.isupper] and [str.isdigit] on the whole of
    Unicode, in [check_character_types] and in the charset size of
    [calculate_entropy] alike. In every password a non-ASCII character is
    no punctuation, and it does count when it is a Unicode lowercase letter
    (the sub-score is then at least 1 and the charset size at least 26), an
    uppercase letter (the same) or a digit (at least 1 and 10). For a
    password of non-ASCII characters only, the sub-score is the number of
    these three classes that occur in it and the charset size is 26, 26 and
    10 for them; both are 0, and the entropy is the int 0, exactly when no
    character is a Unicode lowercase letter, uppercase letter or digit. *)
Theorem non_ascii_counts_by_unicode_class `{UnicodeData} st :
  let pw := self_password st in
  exists t cs,
    (check_character_types st).1 = inr t /\
    (calculate_entropy st).1 =
      inr (if cs =? 0 then Zero else Surd (self_length st) cs) /\
    (forall c, In c pw -> (128 <= c)%N ->
       in_punctuation c = false /\
       (islower c = true -> 1 <= t /\ 26 <= cs) /\
       (isupper c = true -> 1 <= t /\ 26 <= cs) /\
       (isdigit c = true -> 1 <= t /\ 10 <= cs)) /\
    ((forall c, In c pw -> (128 <= c)%N) ->
       t = Z.b2z (any islower pw) + Z.b2z (any isupper pw) +
           Z.b2z (any isdigit pw) /\
       cs = 26 * Z.b2z (any islower pw) + 26 * Z.b2z (any isupper pw) +
            10 * Z.b2z (any isdigit pw) /\
       (t = 0 <-> cs = 0) /\
       (cs = 0 <->
        forall c, In c pw ->
          islower c = false /\ isupper c = false /\ isdigit c = false)).
Proof.
  intros pw. exists (types_of pw), (charset_size_of pw).
  split; [now rewrite check_character_types_run|].
  split; [now rewrite calculate_entropy_run|].
  rewrite types_of_eq, charset_size_of_eq.
  split.
  - intros c Hin Hc. split; [now apply in_punctuation_non_ascii|].
    split; [|split]; intros Hcls;
      first [ rewrite (any_true_intro islower pw c Hin Hcls)
            | rewrite (any_true_intro isupper pw c Hin Hcls)
            | rewrite (any_true_intro isdigit pw c Hin Hcls) ];
      destruct (any islower pw), (any isupper pw), (any isdigit pw),
               (any in_punctuation pw); simpl; lia.
  - intros Hall.
    assert (Hp : any in_punctuation pw = false).
    { apply any_false. intros c Hc.
      apply in_punctuation_non_ascii, (Hall c Hc). }
    rewrite Hp.
    split; [simpl; lia|]. split; [simpl; lia|]. split.
    + destruct (any islower pw), (any isupper pw), (any isdigit pw);
        simpl; lia.
    + split.
      * intros Hcs c Hc.
        destruct (any islower pw) eqn:Hl; [simpl in Hcs;
          destruct (any isupper pw), (any isdigit pw); simpl in Hcs; lia|].
        destruct (any isupper pw) eqn:Hu; [simpl in Hcs;
          destruct (any isdigit pw); simpl in Hcs; lia|].
        destruct (any isdigit pw) eqn:Hd; [simpl in Hcs; lia|].
        rewrite any_false_iff in Hl, Hu, Hd. auto.
      * intros Hnone.
        rewrite (any_false islower pw) by (intros c Hc; apply (Hnone c Hc)).
        rewrite (any_false isupper pw) by (intros c Hc; apply (Hnone c Hc)).
        rewrite (any_false isdigit pw) by (intros c Hc; apply (Hnone c Hc)).
        reflexivity.
Qed.

(** The amended claim at the two-character password U+00E9 U+00D7 (e with
    acute accent, multiplication sign): the first is a lowercase letter,
    the second is in no class; the sub-score is 1 and the entropy
    [2 * sqrt 26]. *)
Lemma non_ascii_counts_by_unicode_class_witness :
  let st := new_checker [233%N; 215%N] fallback_passwords in
  (check_character_types (H := latin1) st).1 = inr 1 /\
  (calculate_entropy (H := latin1) st).1 = inr (Surd 2 26).
Proof.
  intros st.
  destruct (non_ascii_counts_by_unicode_class (H := latin1) st)
    as (t & cs & Ht & He & _ & Hall).
  destruct Hall as (Ht' & Hcs' & _).
  - intros c [<- | [<- | []]]; lia.
  - subst t cs. split; [exact Ht | exact He].
Defined.

(** ** C5: the score is a sum of bounded parts *)

(** C5: on a new instance, for every password and every set of common
    passwords, the score [evaluate] leaves in [self.score] is the sum of
    what [check_length] returned, between 0 and 4, what
    [check_character_types] returned, between 0 and 4, what
    [check_common_patterns] returned, 0 or -2, what [check_common_password]
    returned, 0 or -2, and the entropy bonus, between 0 and 5; it lies
    between -4 and 17. It is the score of the result when [evaluate]
    returns, and when [evaluate] raises, the exception is OverflowError. *)
Theorem score_is_sum_of_bounded_parts `{UnicodeData} pw common :
  let st := new_checker pw common in
  exists l t p c e,
    (check_length st).1 = inr l /\ 0 <= l <= 4 /\
    (check_character_types st).1 = inr t /\ 0 <= t <= 4 /\
    (check_common_patterns st).1 = inr p /\ (p = 0 \/ p = -2) /\
    (check_common_password st).1 = inr c /\ (c = 0 \/ c = -2) /\
    (calculate_entropy st).1 = inr e /\ 0 <= Z.min (int_div20 e) 5 <= 5 /\
    self_score (evaluate st).2 = l + t + p + c + Z.min (int_div20 e) 5 /\
    -4 <= self_score (evaluate st).2 <= 17 /\
    match (evaluate st).1 with
    | inr r => score r = l + t + p + c + Z.min (int_div20 e) 5
    | inl ex => ex = OverflowError
    end.
Proof.
  intros st.
  exists (length_part (self_length st)).1, (types_part (self_password st)).1,
         (patterns_part (self_password st)).1,
         (common_part (self_password st) (self_common_passwords st)).1,
         (entropy_of (self_password st) (self_length st)).
  rewrite check_length_run, check_character_types_run,
          check_common_patterns_run, check_common_password_run,
          calculate_entropy_run, evaluate_run.
  cbn [fst snd].
  split; [reflexivity|]. split; [apply length_part_bounds|].
  split; [reflexivity|]. split; [apply types_of_bounds|].
  split; [reflexivity|]. split; [apply patterns_part_cases|].
  split; [reflexivity|]. split; [apply common_part_cases|].
  split; [reflexivity|]. split; [apply bonus_bounds|].
  split; [subst st; rewrite score_after_new; reflexivity|].
  split; [subst st; rewrite score_after_new; apply score_gain_bounds|].
  destruct (evaluate_new pw common) as (label & _ & Hget & _).
  unfold outcome. subst st. rewrite score_after_new, Hget.
  destruct (pow2_overflows _); reflexivity.
Qed.

(** ** C6: the rating is one of the five labels *)

(** C6: on a new instance, for every password, the lookup of line 91 does
    not leave the table: the index lies between -2 and 4 and selects one of
    the five labels. When [evaluate] returns, the rating of the result is
    that label and its score the integer in [self.score]; when it raises,
    the exception is OverflowError, never IndexError. *)
Theorem rating_is_one_of_five_labels `{UnicodeData} pw common :
  let st := new_checker pw common in
  let index := Z.min (self_score (evaluate st).2 / 3) 4 in
  -2 <= index <= 4 /\
  exists label,
    In label ["Very Weak"; "Weak"; "Moderate"; "Strong"; "Very Strong"]%string /\
    getitem rating_table index = inr label /\
    match (evaluate st).1 with
    | inr r => rating r = label /\ score r = self_score (evaluate st).2
    | inl ex => ex = OverflowError
    end.
Proof.
  intros st index.
  destruct (evaluate_new pw common) as (label & Hin & Hget & Hev).
  fold st in Hget, Hev. subst index. rewrite Hev. cbn [fst snd].
  subst st. rewrite score_after_new.
  pose proof (score_gain_bounds (new_checker pw common)) as Hb.
  split.
  - split; [|lia]. apply Z.min_glb; [|lia].
    apply Z.div_le_lower_bound; lia.
  - exists label. split; [exact Hin|]. split; [exact Hget|].
    destruct (pow2_overflows _); [reflexivity | split; reflexivity].
Qed.

(** ** C7: loading the common passwords *)

Section Loading.

Context `{UnicodeData}.

(** When [load_common_passwords] returns, either the file was read to its
    end and the set is that of its stripped lines, or a FileNotFoundError
    was raised in the body of the [try] and the set is the fallback. *)
Lemma load_common_passwords_returns fs common :
  load_common_passwords fs = inr common ->
  (exists lines,
     fs = Opened lines /\ common = list_to_set (List.map strip lines)) \/
  ((fs = OpenFailed FileNotFoundError \/
    fs = ReadFailed (ReadOSError FileNotFoundError)) /\
   common = fallback_passwords).
Proof.
  unfold load_common_passwords, read_common_passwords.
  destruct fs as [lines | [] | [| []]]; cbn [read_exn]; intros Hload;
    try discriminate Hload; injection Hload as <-.
  - left. exists lines. split; reflexivity.
  - right. split; [left|]; reflexivity.
  - right. split; [right|]; reflexivity.
Qed.

(** When it raises, the exception is the one [open] or the iteration
    raised, and it is not FileNotFoundError. *)
Lemma load_common_passwords_raises fs e :
  load_common_passwords fs = inl e ->
  (exists oe,
     (fs = OpenFailed oe \/ fs = ReadFailed (ReadOSError oe)) /\
     oe <> FileNotFoundError /\ e = OSErr oe) \/
  (fs = ReadFailed DecodeFailed /\ e = UnicodeDecodeError).
Proof.
  unfold load_common_passwords, read_common_passwords.
  destruct fs as [lines | oe | [| oe]]; cbn [read_exn]; intros Hload.
  - discriminate Hload.
  - left. exists oe. destruct oe; try discriminate Hload;
      injection Hload as <-; (split; [left; reflexivity|]);
      (split; [discriminate | reflexivity]).
  - right. injection Hload as <-. split; reflexivity.
  - left. exists oe. destruct oe; try discriminate Hload;
      injection Hload as <-; (split; [right; reflexivity|]);
      (split; [discriminate | reflexivity]).
Qed.

End Loading.



(** ** C8: the lines of the file are stripped, not lower-cased *)

(** C8 (the code departs from the claim): with a file whose one line is
    Password, the set holds Password as written. The input password is
    lower-cased before the membership test, so it is not found, the check
    returns 0 and appends nothing; the same holds when the input is
    Password itself. *)
Theorem capitalised_entry_is_never_matched `{UnicodeData} :
  let line := lit "Password" ++ [10%N] in
  exists common,
    load_common_passwords (Opened [line]) = inr common /\
    common = {[ lit "Password" ]} /\
    init (Opened [line]) (lit "password")
      = inr (new_checker (lit "password") common) /\
    check_common_password (new_checker (lit "password") common)
      = (inr 0, new_checker (lit "password") common) /\
    check_common_password (new_checker (lit "Password") common)
      = (inr 0, new_checker (lit "Password") common).
Proof.
  intros line.
  assert (Hload : load_common_passwords (Opened [line])
                  = inr ({[ lit "Password" ]} : gset str)).
  { unfold load_common_passwords, read_common_passwords. simpl List.map.
    rewrite (strip_ascii _ latin1) by (subst line; ascii_literal).
    replace (strip (H := latin1) line) with (lit "Password")
      by (vm_compute; reflexivity).
    simpl. now rewrite union_empty_r_L. }
  exists {[ lit "Password" ]}.
  split; [exact Hload|]. split; [reflexivity|]. split.
  - unfold init. now rewrite Hload.
  - split.
    + rewrite (check_common_password_ascii _ latin1) by ascii_literal.
      vm_compute. reflexivity.
    + rewrite (check_common_password_ascii _ latin1) by ascii_literal.
      vm_compute. reflexivity.
Qed.

(** ** C9: calling [evaluate] twice on one instance *)

Section SecondCall.

Context `{UnicodeData}.

(** A call of [evaluate] changes [self.score] and [self.feedback] only, and
    what the next call adds depends on neither. *)
Lemma score_gain_after st : score_gain (after_evaluate st) = score_gain st.
Proof. reflexivity. Qed.

Lemma feedback_gain_after st :
  feedback_gain (after_evaluate st) = feedback_gain st.
Proof. reflexivity. Qed.

Lemma feedback_gain_not_nil st : feedback_gain st <> [].
Proof.
  unfold feedback_gain.
  destruct (length_part_one_line (self_length st)) as [msg ->].
  discriminate.
Qed.

Lemma app_self_neq {A} (l : list A) : l <> [] -> l ++ l <> l.
Proof.
  intros Hl Heq. apply (f_equal (@List.length A)) in Heq.
  rewrite List.length_app in Heq.
  destruct l; [congruence | simpl in Heq; lia].
Qed.

End SecondCall.

(** C9: when [evaluate] has returned on a new instance, a second call on
    the same instance returns too; its score is twice the first score, and
    the feedback list it returns holds the lines of the first call twice
    over, so the two results differ. The list of the first result is the
    same object: read after the second call, it has grown as well. *)
Theorem second_evaluate_doubles `{UnicodeData} pw common r1 st1 :
  evaluate (new_checker pw common) = (inr r1, st1) ->
  exists r2 st2,
    evaluate st1 = (inr r2, st2) /\
    score r2 = 2 * score r1 /\
    deref st2 (feedback r2)
      = deref st1 (feedback r1) ++ deref st1 (feedback r1) /\
    deref st2 (feedback r2) <> deref st1 (feedback r1) /\
    deref st2 (feedback r1) = deref st2 (feedback r2).
Proof.
  intros Hfirst.
  set (st0 := new_checker pw common) in *.
  destruct (evaluate_new pw common) as (label & _ & _ & Hev).
  fold st0 in Hev. rewrite Hev in Hfirst.
  destruct (pow2_overflows (entropy_of pw (len pw))) eqn:Hov; [discriminate|].
  injection Hfirst as <- <-.
  pose proof (score_gain_bounds st0) as Hb.
  destruct (getitem_rating_table
              (Z.min ((score_gain st0 + score_gain st0) / 3) 4))
    as (label2 & Hget2 & _).
  { split; [|lia]. apply Z.min_glb; [|lia].
    apply Z.div_le_lower_bound; lia. }
  exists (mkResult label2 (score_gain st0 + score_gain st0)
                   (round1 (entropy_of pw (len pw)))
                   (crack_time_of (entropy_of pw (len pw)))
                   self_feedback_ref),
         (after_evaluate (after_evaluate st0)).
  split.
  - rewrite evaluate_run. unfold outcome.
    cbn [self_score self_password self_length after_evaluate].
    rewrite score_gain_after.
    change (self_score st0) with 0. rewrite Z.add_0_l, Hget2.
    change (self_password st0) with pw. change (self_length st0) with (len pw).
    rewrite Hov. reflexivity.
  - cbn [score feedback deref]. split; [lia|].
    cbn [self_feedback after_evaluate]. rewrite feedback_gain_after.
    change (self_feedback st0) with (@nil string). rewrite app_nil_l.
    split; [reflexivity|]. split; [|reflexivity].
    apply app_self_neq, feedback_gain_not_nil.
Qed.

(** C9 at the password "password" with the fallback set: the first call
    returns score 3, the second score 6 and six lines of feedback. *)
Lemma second_evaluate_doubles_witness :
  let st0 := new_checker (lit "password") fallback_passwords in
  let r1 := mkResult "Weak" 3 (Tenths 408) (crack_time_of (Surd 8 26))
                     self_feedback_ref in
  let st1 := (evaluate (H := latin1) st0).2 in
  evaluate (H := latin1) st0 = (inr r1, st1) /\
  exists r2 st2,
    evaluate (H := latin1) st1 = (inr r2, st2) /\
    score r2 = 2 * score r1 /\
    deref st2 (feedback r2)
      = deref st1 (feedback r1) ++ deref st1 (feedback r1) /\
    deref st2 (feedback r2) <> deref st1 (feedback r1) /\
    deref st2 (feedback r1) = deref st2 (feedback r2).
Proof.
  intros st0 r1 st1.
  assert (Hfirst : evaluate (H := latin1) st0 = (inr r1, st1))
    by (vm_compute; reflexivity).
  split; [exact Hfirst|].
  exact (second_evaluate_doubles (H := latin1) (lit "password")
           fallback_passwords r1 st1 Hfirst).
Defined.

(** ** C10: the special characters of the quick classifier *)

Lemma re_search_iff (class : N -> bool) (s : str) :
  re_search class s = true <-> exists c, In c s /\ class c = true.
Proof. unfold re_search. apply existsb_exists. Qed.

Lemma in_range_iff (lo hi c : N) :
  ((lo <=? c) && (c <=? hi))%N = true <-> (lo <= c <= hi)%N.
Proof. rewrite andb_true_iff, !N.leb_le. tauto. Qed.

Lemma special_characters_in_punctuation c :
  bool_decide (c ∈ special_characters) = true -> in_punctuation c = true.
Proof.
  intros Hc. apply bool_decide_eq_true, list_elem_of_In in Hc.
  unfold in_punctuation. vm_compute in Hc.
  repeat (destruct Hc as [<- | Hc]; [vm_compute; reflexivity|]).
  contradiction.
Qed.

Section QuickClassifier.

Context `{UnicodeData}.

(** The four searches of lines 108-115, by the characters they find. *)
Lemma search_lower_iff pw :
  re_search (fun c => (97 <=? c)%N && (c <=? 122)%N) pw = true <->
  exists c, In c pw /\ (97 <= c <= 122)%N.
Proof.
  rewrite re_search_iff.
  split; intros (c & Hin & Hc); exists c; split; auto; now apply in_range_iff.
Qed.

Lemma search_upper_iff pw :
  re_search (fun c => (65 <=? c)%N && (c <=? 90)%N) pw = true <->
  exists c, In c pw /\ (65 <= c <= 90)%N.
Proof.
  rewrite re_search_iff.
  split; intros (c & Hin & Hc); exists c; split; auto; now apply in_range_iff.
Qed.

Lemma search_special_iff pw :
  re_search (fun c => bool_decide (c ∈ special_characters)) pw = true <->
  exists c, In c pw /\ c ∈ special_characters.
Proof.
  rewrite re_search_iff.
  split; intros (c & Hin & Hc); exists c; split; auto.
  - now apply bool_decide_eq_true in Hc.
  - now apply bool_decide_eq_true.
Qed.

(** An ASCII digit is found by the class of line 112. *)
Lemma search_digit_ascii pw :
  (exists c, In c pw /\ (48 <= c <= 57)%N) -> re_search isdecimal pw = true.
Proof.
  intros (c & Hin & Hc). apply re_search_iff. exists c. split; [exact Hin|].
  rewrite isdecimal_ascii by lia. now apply in_range_iff.
Qed.

(** What the quick classifier answers, by what the password holds. *)
Lemma simple_strength_check_not_weak pw :
  simple_strength_check pw <> "Weak"%string <->
  8 <= len pw /\
  (exists c, In c pw /\ (97 <= c <= 122)%N) /\
  (exists c, In c pw /\ (65 <= c <= 90)%N) /\
  (exists c, In c pw /\ isdecimal c = true) /\
  (exists c, In c pw /\ c ∈ special_characters).
Proof.
  rewrite <- search_lower_iff, <- search_upper_iff, <- search_special_iff.
  rewrite <- (re_search_iff isdecimal).
  unfold simple_strength_check.
  destruct (Z.ltb_spec (len pw) 8) as [Hlt | Hge].
  { split; [intros Hne; now contradiction Hne | intros (Hlen & _); lia]. }
  destruct (re_search (fun c => (97 <=? c)%N && (c <=? 122)%N) pw);
    cbn [negb];
    [|split; [intros Hne; now contradiction Hne
             | intros (_ & Hf & _); discriminate Hf]].
  destruct (re_search (fun c => (65 <=? c)%N && (c <=? 90)%N) pw);
    cbn [negb];
    [|split; [intros Hne; now contradiction Hne
             | intros (_ & _ & Hf & _); discriminate Hf]].
  destruct (re_search isdecimal pw);
    cbn [negb];
    [|split; [intros Hne; now contradiction Hne
             | intros (_ & _ & _ & Hf & _); discriminate Hf]].
  destruct (re_search (fun c => bool_decide (c ∈ special_characters)) pw);
    cbn [negb];
    [|split; [intros Hne; now contradiction Hne
             | intros (_ & _ & _ & _ & Hf); discriminate Hf]].
  split; [auto|]. intros _.
  destruct (len pw <? 12); discriminate.
Qed.

(** The three classes both classifiers count alike, on ASCII letters and
    digits. *)
Lemma letters_and_digit_counted pw :
  (exists c, In c pw /\ (97 <= c <= 122)%N) ->
  (exists c, In c pw /\ (65 <= c <= 90)%N) ->
  (exists c, In c pw /\ (48 <= c <= 57)%N) ->
  any islower pw = true /\ any isupper pw = true /\ any isdigit pw = true.
Proof.
  intros (l & Hl & Hlr) (u & Hu & Hur) (d & Hd & Hdr).
  split; [|split].
  - apply (any_true_intro islower pw l Hl).
    rewrite islower_ascii by lia. now apply in_range_iff.
  - apply (any_true_intro isupper pw u Hu).
    rewrite isupper_ascii by lia. now apply in_range_iff.
  - apply (any_true_intro isdigit pw d Hd).
    rewrite isdigit_ascii by lia. now apply in_range_iff.
Qed.

End QuickClassifier.

(** C10: the class of line 114 is the twenty characters listed below by
    code point (exclamation mark, at sign, ..., less-than, greater-than);
    each is in [string.punctuation], which also has the underscore (95).
    The quick classifier answers other than Weak exactly when the password
    has eight characters or more, a letter a-z, a letter A-Z, a decimal
    digit and one of these twenty characters. So every password with a
    letter a-z, a letter A-Z, a digit 0-9 and the underscore, and none of
    the twenty characters, has all four classes for
    [check_character_types] yet is Weak for [simple_strength_check],
    whatever its length; with one of the twenty characters and twelve
    characters or more it is Strong. The passwords Abcdefghij1_ and
    Abcdefghij1! show the two cases. *)
Theorem quick_classifier_misses_underscore `{UnicodeData} common :
  special_characters =
    [33; 64; 35; 36; 37; 94; 38; 42; 40; 41; 44; 46; 63; 34; 58; 123; 125;
     124; 60; 62]%N /\
  (forall c : N, c ∈ special_characters -> c ∈ punctuation) /\
  (95%N ∈ punctuation /\ 95%N ∉ special_characters) /\
  (forall pw,
     simple_strength_check pw <> "Weak"%string <->
     8 <= len pw /\
     (exists c, In c pw /\ (97 <= c <= 122)%N) /\
     (exists c, In c pw /\ (65 <= c <= 90)%N) /\
     (exists c, In c pw /\ isdecimal c = true) /\
     (exists c, In c pw /\ c ∈ special_characters)) /\
  (forall pw,
     (exists c, In c pw /\ (97 <= c <= 122)%N) ->
     (exists c, In c pw /\ (65 <= c <= 90)%N) ->
     (exists c, In c pw /\ (48 <= c <= 57)%N) ->
     In 95%N pw ->
     (forall c, In c pw -> c ∉ special_characters) ->
     (check_character_types (new_checker pw common)).1 = inr 4 /\
     simple_strength_check pw = "Weak"%string) /\
  (forall pw,
     12 <= len pw ->
     (exists c, In c pw /\ (97 <= c <= 122)%N) ->
     (exists c, In c pw /\ (65 <= c <= 90)%N) ->
     (exists c, In c pw /\ (48 <= c <= 57)%N) ->
     (exists c, In c pw /\ c ∈ special_characters) ->
     (check_character_types (new_checker pw common)).1 = inr 4 /\
     simple_strength_check pw = "Strong"%string) /\
  let pw := lit "Abcdefghij1_" in
  len pw = 12 /\
  (check_character_types (new_checker pw common)).1 = inr 4 /\
  simple_strength_check pw = "Weak"%string /\
  (check_character_types
     (new_checker (lit "Abcdefghij1!") common)).1 = inr 4 /\
  simple_strength_check (lit "Abcdefghij1!") = "Strong"%string.
Proof.
  assert (Hfour : forall pw,
            (exists c, In c pw /\ (97 <= c <= 122)%N) ->
            (exists c, In c pw /\ (65 <= c <= 90)%N) ->
            (exists c, In c pw /\ (48 <= c <= 57)%N) ->
            (exists c, In c pw /\ in_punctuation c = true) ->
            (check_character_types (new_checker pw common)).1 = inr 4).
  { intros pw Hl Hu Hd (s & Hs & Hsp).
    destruct (letters_and_digit_counted pw Hl Hu Hd) as (Hl' & Hu' & Hd').
    rewrite check_character_types_run. unfold types_part, new_checker.
    cbn [fst self_password]. rewrite types_of_eq, Hl', Hu', Hd'.
    now rewrite (any_true_intro in_punctuation pw s Hs Hsp). }
  assert (Hunder : forall pw,
            (exists c, In c pw /\ (97 <= c <= 122)%N) ->
            (exists c, In c pw /\ (65 <= c <= 90)%N) ->
            (exists c, In c pw /\ (48 <= c <= 57)%N) ->
            In 95%N pw ->
            (forall c, In c pw -> c ∉ special_characters) ->
            (check_character_types (new_checker pw common)).1 = inr 4 /\
            simple_strength_check pw = "Weak"%string).
  { intros pw Hl Hu Hd H95 Hnone. split.
    - apply Hfour; try assumption. exists 95%N. split; [exact H95|].
      vm_compute. reflexivity.
    - destruct (string_dec (simple_strength_check pw) "Weak") as [Hw | Hnw];
        [exact Hw|].
      apply simple_strength_check_not_weak in Hnw
        as (_ & _ & _ & _ & c & Hin & Hc).
      now destruct (Hnone c Hin). }
  assert (Hstrong : forall pw,
            12 <= len pw ->
            (exists c, In c pw /\ (97 <= c <= 122)%N) ->
            (exists c, In c pw /\ (65 <= c <= 90)%N) ->
            (exists c, In c pw /\ (48 <= c <= 57)%N) ->
            (exists c, In c pw /\ c ∈ special_characters) ->
            (check_character_types (new_checker pw common)).1 = inr 4 /\
            simple_strength_check pw = "Strong"%string).
  { intros pw Hlen Hl Hu Hd Hs. split.
    - apply Hfour; try assumption. destruct Hs as (s & Hin & Hs).
      exists s. split; [exact Hin|].
      apply special_characters_in_punctuation. now apply bool_decide_eq_true.
    - unfold simple_strength_check.
      apply search_lower_iff in Hl. apply search_upper_iff in Hu.
      apply search_digit_ascii in Hd. apply search_special_iff in Hs.
      rewrite Hl, Hu, Hd, Hs. cbn [negb].
      destruct (Z.ltb_spec (len pw) 8); [lia|].
      destruct (Z.ltb_spec (len pw) 12); [lia | reflexivity]. }
  assert (Hin_of : forall (c : N) (s : str),
            existsb (N.eqb c) s = true -> In c s).
  { intros c s Hex. apply existsb_exists in Hex as (x & Hx & Heq).
    apply N.eqb_eq in Heq. now subst x. }
  split; [reflexivity|]. split; [|split; [|split; [|split; [|split]]]].
  - intros c Hc. apply list_elem_of_In in Hc. apply list_elem_of_In.
    vm_compute in Hc.
    repeat (destruct Hc as [<- | Hc]; [vm_compute; tauto|]).
    contradiction.
  - split.
    + apply list_elem_of_In. vm_compute. tauto.
    + intros Hc. apply list_elem_of_In in Hc. vm_compute in Hc.
      repeat (destruct Hc as [Hc | Hc]; [discriminate Hc|]).
      contradiction.
  - exact simple_strength_check_not_weak.
  - exact Hunder.
  - exact Hstrong.
  - intros pw. split; [reflexivity|].
    assert (H1 : (check_character_types (new_checker pw common)).1 = inr 4 /\
                 simple_strength_check pw = "Weak"%string).
    { apply Hunder.
      - exists 98%N. split; [apply Hin_of; reflexivity | lia].
      - exists 65%N. split; [apply Hin_of; reflexivity | lia].
      - exists 49%N. split; [apply Hin_of; reflexivity | lia].
      - apply Hin_of. reflexivity.
      - intros c Hc Hsp. apply list_elem_of_In in Hsp.
        subst pw. vm_compute in Hc, Hsp.
        repeat (destruct Hc as [<- | Hc];
                [repeat (destruct Hsp as [Hsp | Hsp]; [discriminate Hsp|]);
                 contradiction|]).
        contradiction. }
    assert (H2 : (check_character_types
                    (new_checker (lit "Abcdefghij1!") common)).1 = inr 4 /\
                 simple_strength_check (lit "Abcdefghij1!") = "Strong"%string).
    { apply Hstrong.
      - vm_compute. discriminate.
      - exists 98%N. split; [apply Hin_of; reflexivity | lia].
      - exists 65%N. split; [apply Hin_of; reflexivity | lia].
      - exists 49%N. split; [apply Hin_of; reflexivity | lia].
      - exists 33%N. split; [apply Hin_of; reflexivity|].
        apply list_elem_of_In. vm_compute. tauto. }
    destruct H1 as [H1a H1b]. destruct H2 as [H2a H2b]. auto.
Qed.

(** ** Further properties: the scenarios and rules of the specification *)

(** The empty password with the fallback set: the length sub-score is 0,
    the entropy is the int 0, reported as 0.0, the crack time is less than
    a minute, and [evaluate] returns score 0 and rating Very Weak. *)
Theorem evaluate_empty_password `{UnicodeData} :
  exists st r,
    init (OpenFailed FileNotFoundError) [] = inr st /\
    (check_length st).1 = inr 0 /\
    (calculate_entropy st).1 = inr Zero /\
    (evaluate st).1 = inr r /\
    entropy r = Tenths 0 /\
    bucket (crack_time r) = LessThanAMinute /\
    score r = 0 /\
    rating r = "Very Weak"%string.
Proof.
  exists (new_checker [] fallback_passwords).
  exists (mkResult "Very Weak" 0 (Tenths 0) (crack_time_of Zero)
                   self_feedback_ref).
  split; [reflexivity|]. split; [reflexivity|].
  split; [reflexivity|]. split.
  { rewrite (evaluate_ascii _ latin1) by constructor.
    vm_compute. reflexivity. }
  split; [reflexivity|]. split; [|split; reflexivity].
  cbn [crack_time bucket]. unfold seconds_R. cbn [entropy_R].
  rewrite Rpower_O by lra.
  destruct (Rlt_dec (1 / 2 / 1e12) 60) as [_ | Hge]; [reflexivity|].
  exfalso. apply Hge. lra.
Qed.

(** The password Abc123!@ (eight characters, all four classes): the quick
    classifier returns Moderate and the character-class sub-score is 4. *)
Theorem eight_characters_four_classes `{UnicodeData} common :
  let pw := lit "Abc123!@" in
  len pw = 8 /\
  simple_strength_check pw = "Moderate"%string /\
  (check_character_types (new_checker pw common)).1 = inr 4.
Proof.
  intros pw. split; [reflexivity|]. split.
  - rewrite (simple_strength_check_ascii _ latin1)
      by (subst pw; ascii_literal).
    vm_compute. reflexivity.
  - rewrite (check_character_types_ascii _ latin1)
      by (subst pw; ascii_literal).
    vm_compute. reflexivity.
Qed.

(** The password Abc123!@#$%^ (twelve characters, all four classes):
    the quick classifier returns Strong. *)
Theorem twelve_characters_four_classes `{UnicodeData} :
  let pw := lit "Abc123!@#$%^" in
  len pw = 12 /\ simple_strength_check pw = "Strong"%string.
Proof.
  intros pw. split; [reflexivity|].
  rewrite (simple_strength_check_ascii _ latin1) by (subst pw; ascii_literal).
  vm_compute. reflexivity.
Qed.

(** [contains] finds a pattern wherever it stands. *)
Lemma startswith_app p s : startswith p (p ++ s) = true.
Proof.
  induction p as [|a p IH]; simpl; [reflexivity|].
  now rewrite N.eqb_refl, IH.
Qed.

Lemma contains_unfold s p :
  contains s p =
  startswith p s || match s with [] => false | _ :: s' => contains s' p end.
Proof. destruct s; reflexivity. Qed.

Lemma contains_app a p b : contains (a ++ p ++ b) p = true.
Proof.
  induction a as [|x a IH].
  - rewrite contains_unfold. simpl app. now rewrite startswith_app.
  - simpl. rewrite IH. apply orb_true_r.
Qed.

(** An ASCII password that contains qwerty in any mix of cases,
    whatever stands around it, makes the pattern check return -2 and append
    its line. *)
Theorem qwerty_anywhere_is_penalised `{UnicodeData} st a q b :
  self_password st = a ++ q ++ b ->
  is_ascii (a ++ q ++ b) ->
  List.map ascii_lower q = lit "qwerty" ->
  check_common_patterns st =
  (inr (-2),
   with_feedback st
     ["Avoid common patterns like '123', 'abc', 'qwerty'."%string]).
Proof.
  intros Hpw Hascii Hq.
  rewrite check_common_patterns_run. unfold patterns_part.
  assert (Hbad : has_bad_pattern (self_password st) = true).
  { unfold has_bad_pattern. rewrite Hpw, lower_ascii by assumption.
    rewrite !List.map_app, Hq. unfold any. cbn [existsb].
    rewrite contains_app. now rewrite !orb_true_r. }
  now rewrite Hbad.
Qed.

(** The scenario of the specification, MyQWERTYpass1! *)
Lemma qwerty_anywhere_is_penalised_witness :
  let st := new_checker (lit "MyQWERTYpass1!") fallback_passwords in
  check_common_patterns (H := latin1) st =
  (inr (-2),
   with_feedback st
     ["Avoid common patterns like '123', 'abc', 'qwerty'."%string]).
Proof.
  intros st.
  apply (qwerty_anywhere_is_penalised
           (H := latin1) st (lit "My") (lit "QWERTY") (lit "pass1!")).
  - reflexivity.
  - apply is_ascii_forallb. vm_compute. reflexivity.
  - vm_compute. reflexivity.
Defined.

(** The length sub-score steps from 0 to 2 between seven and eight
    characters. *)
Theorem length_score_steps_at_eight pw7 pw8 common :
  len pw7 = 7 -> len pw8 = 8 ->
  (check_length (new_checker pw7 common)).1 = inr 0 /\
  (check_length (new_checker pw8 common)).1 = inr 2.
Proof.
  intros H7 H8. rewrite !check_length_run. unfold new_checker.
  cbn [fst self_length]. now rewrite H7, H8.
Qed.

Lemma length_score_steps_at_eight_witness :
  (check_length
     (new_checker (lit "passwor") fallback_passwords)).1 = inr 0 /\
  (check_length
     (new_checker (lit "password") fallback_passwords)).1 = inr 2.
Proof.
  apply (length_score_steps_at_eight
           (lit "passwor") (lit "password") fallback_passwords);
    reflexivity.
Defined.

Lemma any_true_nonempty {A} (f : A -> bool) (l : list A) :
  any f l = true -> l <> [].
Proof.
  destruct l as [|a l].
  - intros Hany. discriminate Hany.
  - intros _ Hnil. discriminate Hnil.
Qed.

Lemma charset_size_of_zero_iff `{UnicodeData} pw :
  charset_size_of pw = 0 <->
  any islower pw = false /\ any isupper pw = false /\
  any isdigit pw = false /\ any in_punctuation pw = false.
Proof.
  unfold charset_size_of.
  destruct (any islower pw), (any isupper pw), (any isdigit pw),
           (any in_punctuation pw); simpl; split;
    solve [ intros; lia
          | intros Hcs; repeat split; reflexivity || discriminate Hcs
          | intros (? & ? & ? & ?); discriminate
          | reflexivity ].
Qed.

Lemma charset_size_of_cases `{UnicodeData} pw :
  charset_size_of pw = 0 \/
  (10 <= charset_size_of pw <= 94 /\ pw <> []).
Proof.
  unfold charset_size_of.
  destruct (any islower pw) eqn:Hl; [right; split;
    [destruct (any isupper pw), (any isdigit pw), (any in_punctuation pw);
     simpl; lia | now apply (any_true_nonempty islower)]|].
  destruct (any isupper pw) eqn:Hu; [right; split;
    [destruct (any isdigit pw), (any in_punctuation pw); simpl; lia
    | now apply (any_true_nonempty isupper)]|].
  destruct (any isdigit pw) eqn:Hd; [right; split;
    [destruct (any in_punctuation pw); simpl; lia
    | now apply (any_true_nonempty isdigit)]|].
  destruct (any in_punctuation pw) eqn:Hp; [right; split;
    [simpl; lia | now apply (any_true_nonempty in_punctuation)]|].
  left. reflexivity.
Qed.

(** X7: the entropy is never negative, and it is zero exactly when no
    character of the password is in any of the four classes (the empty
    password included). *)
Theorem entropy_zero_iff_no_class `{UnicodeData} pw common :
  exists e,
    (calculate_entropy (new_checker pw common)).1 = inr e /\
    well_formed e /\
    (0 <= entropy_R e)%R /\
    (entropy_R e = 0%R <->
     forall c, In c pw ->
       islower c = false /\ isupper c = false /\
       isdigit c = false /\ in_punctuation c = false).
Proof.
  exists (entropy_of pw (len pw)).
  split; [reflexivity|].
  assert (Hwf : well_formed (entropy_of pw (len pw))).
  { unfold entropy_of. destruct (charset_size_of pw =? 0); [exact I|].
    split; [unfold len; lia|].
    destruct (charset_size_of_cases pw) as [-> | [Hcs _]]; lia. }
  split; [exact Hwf|].
  split; [now apply EntropyReal.entropy_R_nonneg|].
  assert (Hclass :
    (forall c, In c pw ->
       islower c = false /\ isupper c = false /\
       isdigit c = false /\ in_punctuation c = false) <->
    charset_size_of pw = 0).
  { rewrite charset_size_of_zero_iff, !any_false_iff. split.
    - intros Hall. repeat split; intros c Hc; apply (Hall c Hc).
    - intros (Hl & Hu & Hd & Hp) c Hc. auto. }
  rewrite Hclass. unfold entropy_of.
  destruct (charset_size_of_cases pw) as [Hz | [Hcs Hne]].
  - rewrite Hz. simpl. tauto.
  - destruct (Z.eqb_spec (charset_size_of pw) 0) as [Hz | Hnz]; [lia|].
    split; [|lia]. intros Hzero. exfalso.
    assert (Hlen : (1 <= IZR (len pw))%R).
    { apply IZR_le. unfold len. destruct pw; [congruence | simpl; lia]. }
    assert (Hsqrt : (0 < sqrt (IZR (charset_size_of pw)))%R).
    { apply sqrt_lt_R0. apply IZR_lt. lia. }
    simpl in Hzero. nra.
Qed.

(** The table of the length check, one sub-score and one line per
    range; nothing else of the instance changes. *)
Theorem check_length_table st :
  exists v msg,
    check_length st = (inr v, with_feedback st [msg]) /\
    ((self_length st < 8 /\ v = 0 /\
      msg = "Password is too short (min 8 characters)."%string) \/
     (8 <= self_length st < 12 /\ v = 2 /\
      msg = "Length is okay but could be longer."%string) \/
     (12 <= self_length st < 16 /\ v = 3 /\
      msg = "Good password length."%string) \/
     (16 <= self_length st /\ v = 4 /\
      msg = "Excellent password length."%string)).
Proof.
  rewrite check_length_run. unfold length_part.
  destruct (Z.ltb_spec (self_length st) 8).
  { eexists _, _. split; [reflexivity|]. left. auto. }
  destruct (Z.ltb_spec (self_length st) 12).
  { eexists _, _. split; [reflexivity|]. right; left. auto with zarith. }
  destruct (Z.ltb_spec (self_length st) 16).
  { eexists _, _. split; [reflexivity|]. right; right; left.
    auto with zarith. }
  eexists _, _. split; [reflexivity|]. right; right; right. auto.
Qed.

(** The rules of the quick classifier: Weak below eight characters or when
    one of the four searches fails, otherwise Moderate below twelve
    characters and Strong from twelve on. *)
Theorem simple_strength_check_rules `{UnicodeData} pw :
  let all_four :=
    re_search (fun c => (97 <=? c)%N && (c <=? 122)%N) pw &&
    re_search (fun c => (65 <=? c)%N && (c <=? 90)%N) pw &&
    re_search isdecimal pw &&
    re_search (fun c => bool_decide (c ∈ special_characters)) pw in
  (simple_strength_check pw = "Weak"%string /\
   (len pw < 8 \/ all_four = false)) \/
  (simple_strength_check pw = "Moderate"%string /\
   8 <= len pw < 12 /\ all_four = true) \/
  (simple_strength_check pw = "Strong"%string /\
   12 <= len pw /\ all_four = true).
Proof.
  intros all_four. subst all_four. unfold simple_strength_check.
  destruct (Z.ltb_spec (len pw) 8); [left; auto|].
  destruct (re_search _ pw); simpl; [|left; auto].
  destruct (re_search _ pw); simpl; [|left; auto].
  destruct (re_search isdecimal pw); simpl; [|left; auto].
  destruct (re_search _ pw); simpl; [|left; auto].
  destruct (Z.ltb_spec (len pw) 12); [right; left | right; right];
    auto with zarith.
Qed.

(** ** The lemmas above at concrete inputs *)

Lemma rating_of_nonnegative_score_witness :
  let r := mkResult "Weak" 3 (Tenths 408) (crack_time_of (Surd 8 26))
                    self_feedback_ref in
  nth_error rating_table (Z.to_nat (Z.min (score r / 3) 4)) = Some (rating r).
Proof.
  intros r.
  apply (rating_of_nonnegative_score
           (H := latin1) (lit "password") fallback_passwords r).
  - vm_compute. reflexivity.
  - simpl. lia.
Defined.

Lemma rating_of_negative_score_witness :
  let r := mkResult "Very Strong" (-3) (Tenths 190)
                    (crack_time_of (Surd 6 10)) self_feedback_ref in
  rating r = "Very Strong"%string \/ rating r = "Strong"%string.
Proof.
  intros r.
  apply (rating_of_negative_score
           (H := latin1) (lit "123456") fallback_passwords r).
  - vm_compute. reflexivity.
  - simpl. lia.
Defined.

Lemma evaluate_long_password_raises_witness :
  (evaluate (H := latin1)
     (new_checker (repeat 48%N 324) fallback_passwords)).1
  = inl OverflowError.
Proof.
  apply (evaluate_long_password_raises
           (H := latin1) (repeat 48%N 324) fallback_passwords).
  - vm_compute. discriminate.
  - vm_compute. discriminate.
Defined.

Lemma evaluate_short_password_returns_witness :
  exists r,
    (evaluate (H := latin1)
       (new_checker (lit "password") fallback_passwords)).1 = inr r.
Proof.
  apply (evaluate_short_password_returns
           (H := latin1) (lit "password") fallback_passwords).
  vm_compute. discriminate.
Defined.

Lemma int_div20_is_floor_witness :
  (IZR (int_div20 (Surd 8 26)) <= entropy_R (Surd 8 26) / 20
   < IZR (int_div20 (Surd 8 26)) + 1)%R.
Proof.
  apply (EntropyReal.int_div20_is_floor (Surd 8 26)).
  simpl. lia.
Defined.

Lemma pow2_overflows_iff_witness :
  pow2_overflows (Surd 201 26) = true <-> (1024 <= entropy_R (Surd 201 26))%R.
Proof.
  apply (EntropyReal.pow2_overflows_iff (Surd 201 26)).
  simpl. lia.
Defined.

Lemma round1_is_nearest_witness :
  (IZR 408 - / 2 <= 10 * entropy_R (Surd 8 26) < IZR 408 + / 2)%R.
Proof.
  apply (EntropyReal.round1_is_nearest (Surd 8 26) 408).
  - simpl. lia.
  - reflexivity.
Defined.


(** ** What a call of [evaluate] changes *)

Section Frame.

Context `{UnicodeData}.

Lemma score_gain_upper st : score_gain st <= 13.
Proof.
  unfold score_gain.
  pose proof (length_part_bounds (self_length st)).
  pose proof (types_of_bounds (self_password st)).
  pose proof (bonus_bounds (entropy_of (self_password st) (self_length st))).
  destruct (patterns_part_cases (self_password st)) as [-> | ->],
           (common_part_cases (self_password st) (self_common_passwords st))
             as [-> | ->];
    unfold types_part; simpl; lia.
Qed.

Lemma feedback_gain_length st :
  (1 <= List.length (feedback_gain st) <= 4)%nat.
Proof.
  unfold feedback_gain, types_part, patterns_part, common_part.
  destruct (length_part_one_line (self_length st)) as [msg ->].
  destruct (types_of _ <? 3), (has_bad_pattern _), (bool_decide _);
    simpl; lia.
Qed.

End Frame.

(** X1: a call of [evaluate] on any instance, whether it returns or raises,
    leaves [self.password], [self.length] and [self.common_passwords] as
    they were, keeps the lines already in [self.feedback] and appends
    between one and four lines after them, and changes [self.score] by at
    least -4 and at most 13. *)
Theorem evaluate_frame `{UnicodeData} st :
  let st' := (evaluate st).2 in
  self_password st' = self_password st /\
  self_length st' = self_length st /\
  self_common_passwords st' = self_common_passwords st /\
  (exists lines,
     self_feedback st' = self_feedback st ++ lines /\
     (1 <= List.length lines <= 4)%nat) /\
  -4 <= self_score st' - self_score st <= 13.
Proof.
  intros st'. subst st'. rewrite evaluate_run. cbn [snd].
  unfold after_evaluate.
  cbn [self_password self_length self_common_passwords self_feedback
       self_score].
  split; [reflexivity|]. split; [reflexivity|]. split; [reflexivity|].
  split.
  - exists (feedback_gain st). split; [reflexivity|].
    apply feedback_gain_length.
  - pose proof (score_gain_bounds st). pose proof (score_gain_upper st). lia.
Qed.

(** X2: on a new instance the feedback [evaluate] leaves is the line of the
    length check, then the line of the character-class check when it
    returned less than 3, then the line of the pattern check when it
    returned -2, then the line of the common-password check when it
    returned -2, in this order and with nothing else. *)
Theorem evaluate_feedback_lines `{UnicodeData} pw common :
  let st := new_checker pw common in
  exists msg t p c,
    In msg ["Password is too short (min 8 characters).";
            "Length is okay but could be longer.";
            "Good password length.";
            "Excellent password length."]%string /\
    (check_character_types st).1 = inr t /\
    (check_common_patterns st).1 = inr p /\
    (check_common_password st).1 = inr c /\
    self_feedback (evaluate st).2 =
      [msg] ++
      (if t <? 3
       then ["Use a mix of upper, lower, digits, and special chars."%string]
       else []) ++
      (if p =? -2
       then ["Avoid common patterns like '123', 'abc', 'qwerty'."%string]
       else []) ++
      (if c =? -2 then ["This password is too common!"%string] else []).
Proof.
  intros st.
  rewrite check_character_types_run, check_common_patterns_run,
          check_common_password_run, evaluate_run.
  cbn [fst snd]. unfold after_evaluate, feedback_gain.
  cbn [self_feedback]. subst st. unfold new_checker.
  cbn [self_password self_length self_common_passwords app].
  assert (Hmsg : exists msg,
            (length_part (len pw)).2 = [msg] /\
            In msg ["Password is too short (min 8 characters).";
                    "Length is okay but could be longer.";
                    "Good password length.";
                    "Excellent password length."]%string).
  { unfold length_part.
    destruct (len pw <? 8); [eexists; split; [reflexivity | simpl; tauto]|].
    destruct (len pw <? 12); [eexists; split; [reflexivity | simpl; tauto]|].
    destruct (len pw <? 16); eexists; (split; [reflexivity | simpl; tauto]). }
  destruct Hmsg as (msg & Hline & Hin).
  exists msg, (types_part pw).1, (patterns_part pw).1, (common_part pw common).1.
  split; [exact Hin|]. split; [reflexivity|].
  split; [reflexivity|]. split; [reflexivity|].
  rewrite Hline. unfold types_part, patterns_part, common_part.
  cbn [fst snd].
  destruct (types_of pw <? 3), (has_bad_pattern pw), (bool_decide _);
    reflexivity.
Qed.

(** ** Repeated calls on one instance *)

Section Repeated.

Context `{UnicodeData}.

Lemma evaluate_times_state n st :
  evaluate_times n st =
  mkChecker (self_password st) (self_length st)
            (self_score st + Z.of_nat n * score_gain st)
            (self_feedback st ++ concat (repeat (feedback_gain st) n))
            (self_common_passwords st).
Proof.
  induction n as [|n IH].
  - destruct st. simpl. rewrite Z.add_0_r, app_nil_r. reflexivity.
  - cbn [evaluate_times]. rewrite evaluate_run, IH. cbn [snd].
    unfold after_evaluate.
    cbn [self_password self_length self_score self_feedback
         self_common_passwords].
    change (score_gain (mkChecker _ _ _ _ _)) with (score_gain st).
    change (feedback_gain (mkChecker _ _ _ _ _)) with (feedback_gain st).
    f_equal.
    + lia.
    + rewrite <- app_assoc. f_equal.
      replace (S n) with (n + 1)%nat by lia.
      rewrite repeat_app, concat_app. simpl. now rewrite app_nil_r.
Qed.

End Repeated.

(** X3: after [n] calls of [evaluate] on a new instance, [self.score] is [n]
    times the score of the first call and [self.feedback] is the feedback
    of the first call [n] times over. *)
Theorem evaluate_n_times `{UnicodeData} pw common n :
  let st1 := (evaluate (new_checker pw common)).2 in
  let stn := evaluate_times n (new_checker pw common) in
  self_score stn = Z.of_nat n * self_score st1 /\
  self_feedback stn = concat (repeat (self_feedback st1) n).
Proof.
  intros st1 stn. subst st1 stn.
  rewrite evaluate_times_state, evaluate_run. cbn [snd].
  unfold after_evaluate, new_checker.
  cbn [self_score self_feedback self_password self_length
       self_common_passwords app].
  split; [lia | reflexivity].
Qed.

(** X4: when the first call on a new instance leaves a negative score [s], the
    score keeps going down, and the call that would bring it below -15
    raises IndexError at line 91: the index [score // 3] is then below -5,
    outside the table of five labels. *)
Theorem repeated_evaluate_raises_IndexError `{UnicodeData} pw common k :
  let s := self_score (evaluate (new_checker pw common)).2 in
  s < 0 ->
  (Z.of_nat k + 1) * s < -15 ->
  (evaluate (evaluate_times k (new_checker pw common))).1 = inl IndexError.
Proof.
  intros s Hneg Hlow. subst s.
  rewrite evaluate_run in Hneg, Hlow. cbn [snd] in Hneg, Hlow.
  rewrite score_after_new in Hneg, Hlow.
  rewrite evaluate_run, evaluate_times_state. cbn [fst].
  unfold outcome, after_evaluate.
  cbn [self_score self_password self_length self_common_passwords
       self_feedback].
  change (score_gain (mkChecker _ _ _ _ _))
    with (score_gain (new_checker pw common)).
  change (self_score (new_checker pw common)) with 0.
  set (g := score_gain (new_checker pw common)) in *.
  rewrite getitem_rating_table_out; [reflexivity|].
  left. apply Z.min_lt_iff. left.
  apply Z.div_lt_upper_bound; lia.
Qed.

(** The password 123456 with the fallback set: the first call leaves -3,
    and the sixth call raises. *)
Lemma repeated_evaluate_raises_IndexError_witness :
  (evaluate (H := latin1)
     (evaluate_times (H := latin1) 5
        (new_checker (lit "123456") fallback_passwords))).1
  = inl IndexError.
Proof.
  apply (repeated_evaluate_raises_IndexError
           (H := latin1) (lit "123456") fallback_passwords 5).
  - vm_compute. reflexivity.
  - vm_compute. reflexivity.
Defined.

(** ** The rating as a function of the score *)

(** X5: on a new instance, when [evaluate] returns, the rating is read off the
    score as follows: -4 gives Strong and -3 to -1 give Very Strong (the
    index is negative and counts from the end of the table), 0 to 2 give
    Very Weak, 3 to 5 Weak, 6 to 8 Moderate, 9 to 11 Strong and 12 or 13
    Very Strong; no other score occurs. *)
Theorem rating_by_score `{UnicodeData} pw common r :
  (evaluate (new_checker pw common)).1 = inr r ->
  -4 <= score r <= 13 /\
  rating r =
    (if score r <? -3 then "Strong"%string
     else if score r <? 0 then "Very Strong"%string
     else if score r <? 3 then "Very Weak"%string
     else if score r <? 6 then "Weak"%string
     else if score r <? 9 then "Moderate"%string
     else if score r <? 12 then "Strong"%string
     else "Very Strong"%string).
Proof.
  intros Hr.
  destruct (evaluate_new pw common) as (label & _ & Hget & Hev).
  rewrite Hev in Hr. cbn [fst] in Hr.
  destruct (pow2_overflows _); [discriminate|].
  injection Hr as <-. cbn [score rating].
  pose proof (score_gain_bounds (new_checker pw common)) as Hlo.
  pose proof (score_gain_upper (new_checker pw common)) as Hhi.
  set (s := score_gain (new_checker pw common)) in *.
  split; [lia|].
  assert (Hs : s = -4 \/ s = -3 \/ s = -2 \/ s = -1 \/ s = 0 \/ s = 1 \/
               s = 2 \/ s = 3 \/ s = 4 \/ s = 5 \/ s = 6 \/ s = 7 \/
               s = 8 \/ s = 9 \/ s = 10 \/ s = 11 \/ s = 12 \/ s = 13)
    by lia.
  repeat (destruct Hs as [Hs | Hs];
          [rewrite Hs in Hget |- *; vm_compute in Hget;
           injection Hget as <-; reflexivity|]).
  rewrite Hs in Hget |- *. vm_compute in Hget.
  injection Hget as <-. reflexivity.
Qed.

Lemma rating_by_score_witness :
  let r := mkResult "Weak" 3 (Tenths 408) (crack_time_of (Surd 8 26))
                    self_feedback_ref in
  -4 <= score r <= 13 /\
  rating r =
    (if score r <? -3 then "Strong"%string
     else if score r <? 0 then "Very Strong"%string
     else if score r <? 3 then "Very Weak"%string
     else if score r <? 6 then "Weak"%string
     else if score r <? 9 then "Moderate"%string
     else if score r <? 12 then "Strong"%string
     else "Very Strong"%string).
Proof.
  intros r.
  apply (rating_by_score (H := latin1) (lit "password") fallback_passwords r).
  vm_compute. reflexivity.
Defined.

(** ** The pattern check and the substring test *)

Lemma startswith_iff p s : startswith p s = true <-> exists b, s = p ++ b.
Proof.
  revert s. induction p as [|x p IH]; intros s.
  - simpl. split; [intros _; now exists s | reflexivity].
  - destruct s as [|y s]; simpl.
    + split; [discriminate | intros [b Hb]; discriminate Hb].
    + rewrite andb_true_iff, N.eqb_eq, IH. split.
      * intros [-> [b ->]]. now exists b.
      * intros [b Hb]. injection Hb as -> ->. split; [reflexivity | now exists b].
Qed.

(** [contains s p] holds exactly when [p] stands somewhere in [s]. *)
Lemma contains_iff s p :
  contains s p = true <-> exists a b, s = a ++ p ++ b.
Proof.
  induction s as [|x s IH].
  - simpl. rewrite orb_false_r, startswith_iff. split.
    + intros [b Hb]. now exists [], b.
    + intros (a & b & Hab). destruct a as [|y a]; [|discriminate Hab].
      now exists b.
  - cbn [contains]. rewrite orb_true_iff, startswith_iff, IH. split.
    + intros [[b Hb] | (a & b & Hab)].
      * now exists [], b.
      * exists (x :: a), b. now rewrite Hab.
    + intros (a & b & Hab). destruct a as [|y a].
      * left. now exists b.
      * right. injection Hab as _ Hab. now exists a, b.
Qed.

(** X11: for an ASCII password the pattern check returns -2 exactly when the
    password, with its letters lower-cased, contains 123, abc or qwerty as
    a run of consecutive characters; it returns 0 otherwise. *)
Theorem pattern_penalty_iff_substring `{UnicodeData} st :
  is_ascii (self_password st) ->
  ((check_common_patterns st).1 = inr (-2) <->
   exists pat a b,
     In pat [lit "123"; lit "abc"; lit "qwerty"] /\
     List.map ascii_lower (self_password st) = a ++ pat ++ b) /\
  ((check_common_patterns st).1 = inr (-2) \/
   (check_common_patterns st).1 = inr 0).
Proof.
  intros Hascii. rewrite check_common_patterns_run. cbn [fst].
  unfold patterns_part.
  assert (Hbad : has_bad_pattern (self_password st) = true <->
                 exists pat a b,
                   In pat [lit "123"; lit "abc"; lit "qwerty"] /\
                   List.map ascii_lower (self_password st) = a ++ pat ++ b).
  { unfold has_bad_pattern. rewrite lower_ascii by assumption.
    rewrite any_true_iff. split.
    - intros (pat & Hin & Hc). apply contains_iff in Hc as (a & b & Hab).
      now exists pat, a, b.
    - intros (pat & a & b & Hin & Hab). exists pat. split; [exact Hin|].
      apply contains_iff. now exists a, b. }
  destruct (has_bad_pattern (self_password st)); cbn [fst].
  - split; [|left; reflexivity].
    split; [intros _; now apply Hbad | reflexivity].
  - split; [|right; reflexivity].
    split; [discriminate | intros Hex; apply Hbad in Hex; discriminate Hex].
Qed.

(** The pattern qwerty in capitals, in the middle of MyQWERTYpass1! *)
Lemma pattern_penalty_iff_substring_witness :
  let st := new_checker (lit "MyQWERTYpass1!") fallback_passwords in
  ((check_common_patterns (H := latin1) st).1 = inr (-2) <->
   exists pat a b,
     In pat [lit "123"; lit "abc"; lit "qwerty"] /\
     List.map ascii_lower (self_password st) = a ++ pat ++ b) /\
  ((check_common_patterns (H := latin1) st).1 = inr (-2) \/
   (check_common_patterns (H := latin1) st).1 = inr 0).
Proof.
  intros st.
  apply (pattern_penalty_iff_substring (H := latin1) st).
  apply is_ascii_forallb. vm_compute. reflexivity.
Defined.

(** X12: two ASCII passwords that differ only in the case of their letters get
    the same result from the pattern check and from the common-password
    check. *)
Theorem penalties_ignore_letter_case `{UnicodeData} p q common :
  is_ascii p -> is_ascii q ->
  List.map ascii_lower p = List.map ascii_lower q ->
  (check_common_patterns (new_checker p common)).1
    = (check_common_patterns (new_checker q common)).1 /\
  (check_common_password (new_checker p common)).1
    = (check_common_password (new_checker q common)).1.
Proof.
  intros Hp Hq Hpq.
  rewrite !check_common_patterns_run, !check_common_password_run.
  unfold patterns_part, has_bad_pattern, common_part, new_checker.
  cbn [fst self_password self_common_passwords].
  rewrite (lower_ascii p Hp), (lower_ascii q Hq), Hpq.
  split; reflexivity.
Qed.

Lemma penalties_ignore_letter_case_witness :
  (check_common_patterns (H := latin1)
     (new_checker (lit "PassWord") fallback_passwords)).1
    = (check_common_patterns (H := latin1)
         (new_checker (lit "password") fallback_passwords)).1 /\
  (check_common_password (H := latin1)
     (new_checker (lit "PassWord") fallback_passwords)).1
    = (check_common_password (H := latin1)
         (new_checker (lit "password") fallback_passwords)).1.
Proof.
  apply (penalties_ignore_letter_case (H := latin1)
           (lit "PassWord") (lit "password") fallback_passwords).
  - apply is_ascii_forallb. vm_compute. reflexivity.
  - apply is_ascii_forallb. vm_compute. reflexivity.
  - vm_compute. reflexivity.
Defined.

Lemma elem_of_fallback_passwords (s : str) :
  s ∈ fallback_passwords <->
  In s [lit "password"; lit "123456"; lit "qwerty";
        lit "abc123"; lit "admin"; lit "welcome"].
Proof.
  unfold fallback_passwords. simpl.
  rewrite !elem_of_union, !elem_of_singleton. intuition congruence.
Qed.

(** X13: with the fallback set, an ASCII password is reported as too common
    exactly when it is one of the six passwords of the set, written in any
    mix of upper and lower case. *)
Theorem fallback_flags_six_passwords `{UnicodeData} pw :
  is_ascii pw ->
  ((check_common_password (new_checker pw fallback_passwords)).1 = inr (-2) <->
   In (List.map ascii_lower pw)
      [lit "password"; lit "123456"; lit "qwerty";
       lit "abc123"; lit "admin"; lit "welcome"]) /\
  ((check_common_password (new_checker pw fallback_passwords)).1 = inr (-2) \/
   (check_common_password (new_checker pw fallback_passwords)).1 = inr 0).
Proof.
  intros Hascii. rewrite check_common_password_run.
  unfold common_part, new_checker.
  cbn [fst self_password self_common_passwords].
  rewrite lower_ascii by assumption.
  rewrite <- elem_of_fallback_passwords.
  destruct (bool_decide (List.map ascii_lower pw ∈ fallback_passwords))
    eqn:Hdec; cbn [fst].
  - apply bool_decide_eq_true in Hdec. split; [|left; reflexivity].
    split; [intros _; exact Hdec | reflexivity].
  - apply bool_decide_eq_false in Hdec. split; [|right; reflexivity].
    split; [discriminate | intros Hin; contradiction].
Qed.

Lemma fallback_flags_six_passwords_witness :
  ((check_common_password (H := latin1)
      (new_checker (lit "AdMiN") fallback_passwords)).1 = inr (-2) <->
   In (List.map ascii_lower (lit "AdMiN"))
      [lit "password"; lit "123456"; lit "qwerty";
       lit "abc123"; lit "admin"; lit "welcome"]) /\
  ((check_common_password (H := latin1)
      (new_checker (lit "AdMiN") fallback_passwords)).1 = inr (-2) \/
   (check_common_password (H := latin1)
      (new_checker (lit "AdMiN") fallback_passwords)).1 = inr 0).
Proof.
  apply (fallback_flags_six_passwords (H := latin1) (lit "AdMiN")).
  apply is_ascii_forallb. vm_compute. reflexivity.
Defined.

(** ** The lowest score of an ASCII password *)

Section AsciiLowest.

Context `{UnicodeData}.

(** A character whose lower-case form is the digit 1 or one of the letters
    a and q is a digit or a letter. *)
Lemma ascii_lower_first_of_pattern c x :
  (c < 128)%N ->
  ascii_lower c = x ->
  x = 49%N \/ x = 97%N \/ x = 113%N ->
  islower c = true \/ isupper c = true \/ isdigit c = true.
Proof.
  intros Hc Hlow Hx.
  rewrite (islower_ascii c Hc), (isupper_ascii c Hc), (isdigit_ascii c Hc).
  unfold ascii_lower, ascii_isupper, ascii_islower, ascii_isdigit in *.
  repeat match goal with
         | _ : context [N.leb ?a ?b] |- _ => destruct (N.leb_spec a b)
         | |- context [N.leb ?a ?b] => destruct (N.leb_spec a b)
         end; simpl in *; auto; lia.
Qed.

(** An ASCII password with one of the three patterns has a digit or a
    letter, so the character-class check gives it at least 1. *)
Lemma bad_pattern_has_class pw :
  is_ascii pw -> has_bad_pattern pw = true -> 1 <= types_of pw.
Proof.
  intros Hascii Hbad.
  unfold has_bad_pattern in Hbad. rewrite lower_ascii in Hbad by assumption.
  apply any_true_iff in Hbad as (pat & Hpat & Hc).
  apply contains_iff in Hc as (a & b & Hab).
  assert (Hfirst : exists x rest,
            pat = x :: rest /\ (x = 49%N \/ x = 97%N \/ x = 113%N)).
  { simpl in Hpat. destruct Hpat as [<- | [<- | [<- | []]]];
      eexists _, _; (split; [reflexivity | auto]). }
  destruct Hfirst as (x & rest & -> & Hx).
  assert (Hin : In x (List.map ascii_lower pw)).
  { rewrite Hab. apply in_or_app. right. left. reflexivity. }
  apply in_map_iff in Hin as (c & Hlow & Hc).
  pose proof (is_ascii_In pw c Hascii Hc) as Hc128.
  pose proof (types_of_bounds pw) as Hb.
  destruct (ascii_lower_first_of_pattern c x Hc128 Hlow Hx)
    as [Hl | [Hu | Hd]].
  - pose proof (any_true_intro islower pw c Hc Hl) as Hany.
    unfold types_of, sum in *. rewrite Hany. simpl.
    destruct (any isupper pw), (any isdigit pw), (any in_punctuation pw);
      simpl; lia.
  - pose proof (any_true_intro isupper pw c Hc Hu) as Hany.
    unfold types_of, sum in *. rewrite Hany. simpl.
    destruct (any islower pw), (any isdigit pw), (any in_punctuation pw);
      simpl; lia.
  - pose proof (any_true_intro isdigit pw c Hc Hd) as Hany.
    unfold types_of, sum in *. rewrite Hany. simpl.
    destruct (any islower pw), (any isupper pw), (any in_punctuation pw);
      simpl; lia.
Qed.

End AsciiLowest.

(** X6: for an ASCII password the score on a new instance is at least -3: the
    pattern penalty needs a digit or a letter, which the character-class
    check counts. The index of line 91 is then never below -1. *)
Theorem ascii_score_at_least_minus_3 `{UnicodeData} pw common :
  is_ascii pw ->
  -3 <= self_score (evaluate (new_checker pw common)).2 <= 13 /\
  -1 <= Z.min (self_score (evaluate (new_checker pw common)).2 / 3) 4.
Proof.
  intros Hascii. rewrite evaluate_run. cbn [snd]. rewrite score_after_new.
  pose proof (score_gain_upper (new_checker pw common)) as Hhi.
  assert (Hlo : -3 <= score_gain (new_checker pw common)).
  { unfold score_gain, new_checker.
    cbn [self_length self_password self_common_passwords].
    pose proof (length_part_bounds (len pw)).
    pose proof (types_of_bounds pw).
    pose proof (bonus_bounds (entropy_of pw (len pw))).
    pose proof (bad_pattern_has_class pw Hascii) as Hclass.
    unfold types_part, patterns_part in *. cbn [fst].
    destruct (common_part_cases pw common) as [-> | ->];
      destruct (has_bad_pattern pw); cbn [fst];
      try (specialize (Hclass eq_refl)); lia. }
  split; [lia|].
  apply Z.min_glb; [|lia]. apply Z.div_le_lower_bound; lia.
Qed.

(** The bound is reached by 123456 with the fallback set. *)
Lemma ascii_score_at_least_minus_3_witness :
  -3 <= self_score (evaluate (H := latin1)
                      (new_checker (lit "123456") fallback_passwords)).2
     <= 13 /\
  -1 <= Z.min (self_score (evaluate (H := latin1)
                 (new_checker (lit "123456") fallback_passwords)).2 / 3) 4.
Proof.
  apply (ascii_score_at_least_minus_3
           (H := latin1) (lit "123456") fallback_passwords).
  apply is_ascii_forallb. vm_compute. reflexivity.
Defined.

(** ** What a word list read from the file holds *)

Section Stripped.

Context `{UnicodeData}.

Lemma lstrip_all_space s : forallb isspace s = true -> lstrip s = [].
Proof.
  induction s as [|c s IH]; simpl; [reflexivity|].
  intros Hall. apply andb_true_iff in Hall as [Hc Hs].
  rewrite Hc. now apply IH.
Qed.

Lemma strip_all_space s : forallb isspace s = true -> strip s = [].
Proof.
  intros Hall. unfold strip.
  rewrite (lstrip_all_space s) by assumption. reflexivity.
Qed.

(** What [lstrip] returns does not start with whitespace, and is the end of
    its argument. *)
Lemma lstrip_head s c t : lstrip s = c :: t -> isspace c = false.
Proof.
  induction s as [|x s IH]; simpl; [discriminate|].
  destruct (isspace x) eqn:Hx; [exact IH|].
  intros Heq. injection Heq as <- _. exact Hx.
Qed.

Lemma lstrip_suffix s : exists pre, s = pre ++ lstrip s.
Proof.
  induction s as [|x s [pre IH]]; simpl.
  - now exists [].
  - destruct (isspace x).
    + exists (x :: pre). simpl. now rewrite <- IH.
    + now exists [].
Qed.

(** What [strip] returns neither starts nor ends with whitespace. *)
Lemma strip_last s t c : strip s = t ++ [c] -> isspace c = false.
Proof.
  unfold strip. intros Heq.
  apply (f_equal (@rev N)) in Heq. rewrite rev_involutive, rev_unit in Heq.
  now apply lstrip_head in Heq.
Qed.

Lemma strip_head s c t : strip s = c :: t -> isspace c = false.
Proof.
  unfold strip. intros Heq.
  apply (f_equal (@rev N)) in Heq. rewrite rev_involutive in Heq.
  simpl in Heq.
  destruct (lstrip_suffix (rev (lstrip s))) as [pre Hpre].
  rewrite Heq in Hpre.
  apply (f_equal (@rev N)) in Hpre.
  rewrite rev_involutive, !rev_app_distr, rev_involutive in Hpre.
  simpl in Hpre. now apply lstrip_head in Hpre.
Qed.

Lemma elem_of_loaded lines (e : str) :
  e ∈ (list_to_set (List.map strip lines) : gset str) <->
  exists line, In line lines /\ e = strip line.
Proof.
  rewrite elem_of_list_to_set, list_elem_of_In, in_map_iff.
  split; intros (line & H1 & H2); exists line; auto.
Qed.

Lemma lower_nil : lower [] = [].
Proof. now rewrite lower_ascii by constructor. Qed.

End Stripped.

(** X14: when the word list has a line of whitespace only (a blank line, for
    instance), the empty string is in the set: the empty password is then
    reported as too common, its score is -2, and [evaluate] returns the
    rating Very Strong for it. *)
Theorem blank_line_makes_empty_password_very_strong `{UnicodeData}
    lines blank :
  In blank lines ->
  forallb isspace blank = true ->
  exists st r,
    init (Opened lines) [] = inr st /\
    (check_common_password st).1 = inr (-2) /\
    (evaluate st).1 = inr r /\
    score r = -2 /\
    rating r = "Very Strong"%string.
Proof.
  intros Hin Hblank.
  set (common := list_to_set (List.map strip lines) : gset str).
  assert (Hmem : bool_decide (([] : str) ∈ common) = true).
  { apply bool_decide_eq_true. apply elem_of_loaded.
    exists blank. split; [exact Hin|]. symmetry. now apply strip_all_space. }
  assert (Hgain : score_gain (new_checker [] common) = -2).
  { unfold score_gain, new_checker.
    cbn [self_length self_password self_common_passwords].
    unfold common_part, patterns_part, has_bad_pattern.
    rewrite lower_nil, Hmem. reflexivity. }
  exists (new_checker [] common).
  exists (mkResult "Very Strong" (-2) (Tenths 0) (crack_time_of Zero)
                   self_feedback_ref).
  split; [reflexivity|]. split.
  - rewrite check_common_password_run. unfold common_part, new_checker.
    cbn [fst self_password self_common_passwords].
    now rewrite lower_nil, Hmem.
  - split; [|split; reflexivity].
    destruct (evaluate_new [] common) as (label & _ & Hget & ->).
    rewrite Hgain in Hget |- *. vm_compute in Hget. injection Hget as <-.
    reflexivity.
Qed.

(** A word list of two lines, the second one empty. *)
Lemma blank_line_makes_empty_password_very_strong_witness :
  exists st r,
    init (H := latin1) (Opened [lit "password" ++ [10%N]; [10%N]]) []
      = inr st /\
    (check_common_password (H := latin1) st).1 = inr (-2) /\
    (evaluate (H := latin1) st).1 = inr r /\
    score r = -2 /\
    rating r = "Very Strong"%string.
Proof.
  apply (blank_line_makes_empty_password_very_strong
           (H := latin1) [lit "password" ++ [10%N]; [10%N]] [10%N]).
  - simpl. tauto.
  - vm_compute. reflexivity.
Defined.

(** X15: the entries read from the file are stripped, and the fallback entries
    have no whitespace: an ASCII password that starts or ends with an ASCII
    whitespace character is never reported as too common, whatever the
    word list holds. *)
Theorem password_with_outer_space_is_never_common `{UnicodeData}
    fs pw st c rest :
  init fs pw = inr st ->
  is_ascii pw ->
  ascii_isspace c = true ->
  pw = c :: rest \/ pw = rest ++ [c] ->
  check_common_password st = (inr 0, st).
Proof.
  intros Hinit Hascii Hspace Hedge.
  assert (Hc128 : (c < 128)%N).
  { apply (is_ascii_In pw c Hascii).
    destruct Hedge as [-> | ->]; [now left | apply in_or_app; right; now left]. }
  assert (Hlowc : ascii_lower c = c).
  { unfold ascii_lower, ascii_isupper, ascii_isspace in *.
    repeat match goal with
           | _ : context [N.leb ?a ?b] |- _ => destruct (N.leb_spec a b)
           | |- context [N.leb ?a ?b] => destruct (N.leb_spec a b)
           end; simpl in *; try reflexivity; try discriminate; lia. }
  assert (Hsp : isspace c = true) by now rewrite isspace_ascii.
  assert (Hnot : lower pw ∉ self_common_passwords st).
  { rewrite lower_ascii by assumption.
    unfold init in Hinit.
    destruct (load_common_passwords fs) as [ex | common] eqn:Hload;
      [discriminate Hinit|].
    injection Hinit as <-. cbn [self_common_passwords new_checker].
    destruct (load_common_passwords_returns fs common Hload)
      as [(lines & _ & ->) | [_ ->]].
    - intros Hmem. apply elem_of_loaded in Hmem as (line & _ & Heq).
      destruct Hedge as [-> | ->].
      + simpl in Heq. rewrite Hlowc in Heq. symmetry in Heq.
        apply strip_head in Heq. congruence.
      + rewrite List.map_app in Heq. simpl in Heq. rewrite Hlowc in Heq.
        symmetry in Heq. apply strip_last in Heq. congruence.
    - intros Hmem. apply elem_of_fallback_passwords in Hmem.
      assert (Hin : In c (List.map ascii_lower pw)).
      { destruct Hedge as [-> | ->].
        - simpl. rewrite Hlowc. now left.
        - rewrite List.map_app. apply in_or_app. right. simpl.
          rewrite Hlowc. now left. }
      assert (Hnospace : forall s,
                In s [lit "password"; lit "123456"; lit "qwerty";
                      lit "abc123"; lit "admin"; lit "welcome"] ->
                forallb (fun x => negb (ascii_isspace x)) s = true).
      { intros s Hs. simpl in Hs.
        destruct Hs as [<- | [<- | [<- | [<- | [<- | [<- | []]]]]]];
          vm_compute; reflexivity. }
      specialize (Hnospace _ Hmem).
      rewrite forallb_forall in Hnospace. specialize (Hnospace c Hin).
      rewrite Hspace in Hnospace. discriminate Hnospace. }
  assert (Hpw : self_password st = pw).
  { unfold init in Hinit. destruct (load_common_passwords fs);
      [discriminate Hinit | now injection Hinit as <-]. }
  rewrite check_common_password_run. unfold common_part. rewrite Hpw.
  rewrite bool_decide_eq_false_2 by exact Hnot.
  cbn [fst snd]. now rewrite with_feedback_nil.
Qed.

(** The fallback password with a space typed after it. *)
Lemma password_with_outer_space_is_never_common_witness :
  let st := new_checker (lit "password ") fallback_passwords in
  check_common_password (H := latin1) st = (inr 0, st).
Proof.
  intros st.
  apply (password_with_outer_space_is_never_common
           (H := latin1) (OpenFailed FileNotFoundError) (lit "password ")
           st 32%N (lit "password")).
  - reflexivity.
  - apply is_ascii_forallb. vm_compute. reflexivity.
  - reflexivity.
  - right. reflexivity.
Defined.

(** ** Making a password longer *)

Section Appending.

Context `{UnicodeData}.

Lemma length_part_mono L1 L2 :
  L1 <= L2 -> (length_part L1).1 <= (length_part L2).1.
Proof.
  intros Hle.
  destruct (length_part_cases L1) as [[? ->]|[[? ->]|[[? ->]|[? ->]]]],
           (length_part_cases L2) as [[? ->]|[[? ->]|[[? ->]|[? ->]]]];
    lia.
Qed.

Lemma any_app {A} (f : A -> bool) (l m : list A) :
  any f (l ++ m) = any f l || any f m.
Proof. unfold any. apply existsb_app. Qed.

Lemma types_of_app pw extra : types_of pw <= types_of (pw ++ extra).
Proof.
  unfold types_of, sum. rewrite !any_app. simpl.
  destruct (any islower pw), (any isupper pw), (any isdigit pw),
           (any in_punctuation pw); simpl;
    destruct (any islower extra), (any isupper extra), (any isdigit extra),
             (any in_punctuation extra); simpl; lia.
Qed.

Lemma charset_size_of_app pw extra :
  0 <= charset_size_of pw <= charset_size_of (pw ++ extra).
Proof.
  unfold charset_size_of. rewrite !any_app.
  destruct (any islower pw), (any isupper pw), (any isdigit pw),
           (any in_punctuation pw); simpl;
    destruct (any islower extra), (any isupper extra), (any isdigit extra),
             (any in_punctuation extra); simpl; lia.
Qed.

Lemma entropy_sq_entropy_of pw L :
  entropy_sq (entropy_of pw L) = L * L * charset_size_of pw.
Proof.
  unfold entropy_of. destruct (Z.eqb_spec (charset_size_of pw) 0) as [-> |_].
  - simpl. lia.
  - reflexivity.
Qed.

Lemma bonus_app pw extra :
  Z.min (int_div20 (entropy_of pw (len pw))) 5 <=
  Z.min (int_div20 (entropy_of (pw ++ extra) (len (pw ++ extra)))) 5.
Proof.
  apply Z.min_le_compat_r. unfold int_div20.
  apply Z.div_le_mono; [lia|]. apply Z.sqrt_le_mono.
  rewrite !entropy_sq_entropy_of.
  pose proof (charset_size_of_app pw extra).
  assert (0 <= len pw <= len (pw ++ extra)).
  { unfold len. rewrite List.length_app. lia. }
  apply Z.mul_le_mono_nonneg; [nia | nia | lia | lia].
Qed.

End Appending.

(** X10: appending characters to a password never lowers the length sub-score,
    the character-class sub-score or the entropy bonus: the score of the
    longer password, penalties apart, is at least that of the shorter, and
    with the penalties it is lower by at most 4. *)
Theorem appending_lowers_score_by_at_most_4 `{UnicodeData} pw extra common :
  let st := new_checker pw common in
  let st' := new_checker (pw ++ extra) common in
  exists p c p' c',
    (check_common_patterns st).1 = inr p /\
    (check_common_password st).1 = inr c /\
    (check_common_patterns st').1 = inr p' /\
    (check_common_password st').1 = inr c' /\
    self_score (evaluate st).2 - p - c
      <= self_score (evaluate st').2 - p' - c' /\
    self_score (evaluate st).2 - 4 <= self_score (evaluate st').2.
Proof.
  intros st st'.
  exists (patterns_part pw).1, (common_part pw common).1,
         (patterns_part (pw ++ extra)).1, (common_part (pw ++ extra) common).1.
  rewrite !check_common_patterns_run, !check_common_password_run,
          !evaluate_run.
  cbn [fst snd]. subst st st'. rewrite !score_after_new.
  split; [reflexivity|]. split; [reflexivity|].
  split; [reflexivity|]. split; [reflexivity|].
  unfold score_gain, new_checker.
  cbn [self_length self_password self_common_passwords].
  unfold types_part. cbn [fst].
  assert (Hlen : len pw <= len (pw ++ extra)).
  { unfold len. rewrite List.length_app. lia. }
  pose proof (length_part_mono _ _ Hlen).
  pose proof (types_of_app pw extra).
  pose proof (bonus_app pw extra).
  destruct (patterns_part_cases pw) as [Hp | Hp],
           (common_part_cases pw common) as [Hc | Hc],
           (patterns_part_cases (pw ++ extra)) as [Hp' | Hp'],
           (common_part_cases (pw ++ extra) common) as [Hc' | Hc'];
    rewrite Hp, Hc, Hp', Hc'; lia.
Qed.

(** ** The quick classifier against the detailed one *)

Lemma int_div20_four_classes L :
  8 <= L ->
  3 <= Z.min (int_div20 (Surd L 94)) 5 /\
  (12 <= L -> Z.min (int_div20 (Surd L 94)) 5 = 5).
Proof.
  intros HL. unfold int_div20, entropy_sq.
  assert (H77 : 77 <= Z.sqrt (L * L * 94)).
  { change 77 with (Z.sqrt 5929). apply Z.sqrt_le_mono. nia. }
  split.
  - apply Z.min_glb; [|lia]. apply Z.div_le_lower_bound; lia.
  - intros H12.
    assert (H116 : 116 <= Z.sqrt (L * L * 94)).
    { change 116 with (Z.sqrt 13456). apply Z.sqrt_le_mono. nia. }
    apply Z.min_r. apply Z.div_le_lower_bound; lia.
Qed.

(** X16: when the quick classifier does not answer Weak, and every decimal digit
    of the password is a digit for [str.isdigit] (as it is in Python), the
    detailed evaluation finds all four classes and an entropy of
    [len * sqrt 94]; its score is at least 5, and at least 8 when the quick
    answer is Strong, so a returned rating is never Very Weak. *)
Theorem quick_pass_bounds_detailed_score `{UnicodeData} pw common :
  (forall c, In c pw -> isdecimal c = true -> isdigit c = true) ->
  simple_strength_check pw <> "Weak"%string ->
  let st := new_checker pw common in
  (check_character_types st).1 = inr 4 /\
  (calculate_entropy st).1 = inr (Surd (len pw) 94) /\
  5 <= self_score (evaluate st).2 <= 13 /\
  (simple_strength_check pw = "Strong"%string ->
   8 <= self_score (evaluate st).2) /\
  match (evaluate st).1 with
  | inr r => In (rating r) ["Weak"; "Moderate"; "Strong"; "Very Strong"]%string
  | inl ex => ex = OverflowError
  end.
Proof.
  intros Hdec Hquick st.
  unfold simple_strength_check in Hquick.
  destruct (Z.ltb_spec (len pw) 8) as [|Hlen]; [congruence|].
  destruct (re_search _ pw) eqn:Hl in Hquick; simpl in Hquick; [|congruence].
  destruct (re_search _ pw) eqn:Hu in Hquick; simpl in Hquick; [|congruence].
  destruct (re_search isdecimal pw) eqn:Hd in Hquick; simpl in Hquick;
    [|congruence].
  destruct (re_search _ pw) eqn:Hs in Hquick; simpl in Hquick; [|congruence].
  assert (Hl' : any islower pw = true).
  { apply existsb_exists in Hl as (c & Hc & Hrange).
    apply (any_true_intro islower pw c Hc).
    apply andb_true_iff in Hrange as [H1 H2].
    apply N.leb_le in H1, H2.
    rewrite islower_ascii by lia. unfold ascii_islower.
    apply andb_true_iff. split; now apply N.leb_le. }
  assert (Hu' : any isupper pw = true).
  { apply existsb_exists in Hu as (c & Hc & Hrange).
    apply (any_true_intro isupper pw c Hc).
    apply andb_true_iff in Hrange as [H1 H2].
    apply N.leb_le in H1, H2.
    rewrite isupper_ascii by lia. unfold ascii_isupper.
    apply andb_true_iff. split; now apply N.leb_le. }
  assert (Hd' : any isdigit pw = true).
  { apply existsb_exists in Hd as (c & Hc & Hdc).
    apply (any_true_intro isdigit pw c Hc). now apply Hdec. }
  assert (Hs' : any in_punctuation pw = true).
  { apply existsb_exists in Hs as (c & Hc & Hsc).
    apply (any_true_intro in_punctuation pw c Hc).
    now apply special_characters_in_punctuation. }
  assert (Htypes : types_of pw = 4).
  { unfold types_of. now rewrite Hl', Hu', Hd', Hs'. }
  assert (Hcs : charset_size_of pw = 94).
  { unfold charset_size_of. now rewrite Hl', Hu', Hd', Hs'. }
  assert (Hent : entropy_of pw (len pw) = Surd (len pw) 94).
  { unfold entropy_of. now rewrite Hcs. }
  destruct (int_div20_four_classes (len pw) Hlen) as [Hb3 Hb5].
  pose proof (score_gain_upper st) as Hhi.
  assert (Hgain : 5 <= score_gain st /\
                  (12 <= len pw -> 8 <= score_gain st)).
  { unfold score_gain. subst st. unfold new_checker.
    cbn [self_length self_password self_common_passwords].
    unfold types_part. cbn [fst]. rewrite Htypes, Hent.
    destruct (length_part_cases (len pw))
      as [[? Hlp]|[[? Hlp]|[[? Hlp]|[? Hlp]]]]; rewrite Hlp;
      destruct (patterns_part_cases pw) as [-> | ->],
               (common_part_cases pw common) as [-> | ->];
      split; try lia; intros H12; specialize (Hb5 H12); lia. }
  destruct Hgain as [Hg5 Hg8].
  split.
  { rewrite check_character_types_run. unfold types_part. cbn [fst].
    subst st. unfold new_checker. cbn [self_password]. now rewrite Htypes. }
  split.
  { rewrite calculate_entropy_run. cbn [fst]. subst st. unfold new_checker.
    cbn [self_password self_length]. now rewrite Hent. }
  destruct (evaluate_new pw common) as (label & _ & Hget & Hev).
  fold st in Hget, Hev. rewrite Hev. cbn [fst snd].
  subst st. rewrite score_after_new.
  split; [lia|]. split.
  { intros Hstrong. apply Hg8.
    destruct (Z.ltb_spec (len pw) 12) as [Hlt|]; [|assumption].
    unfold simple_strength_check in Hstrong.
    destruct (Z.ltb_spec (len pw) 8); [lia|].
    rewrite Hl, Hu, Hd, Hs in Hstrong. simpl in Hstrong.
    destruct (Z.ltb_spec (len pw) 12); [discriminate Hstrong | lia]. }
  destruct (pow2_overflows _); [reflexivity|]. cbn [rating].
  set (s := score_gain (new_checker pw common)) in *.
  assert (Hcases : s = 5 \/ s = 6 \/ s = 7 \/ s = 8 \/ s = 9 \/ s = 10 \/
                   s = 11 \/ s = 12 \/ s = 13) by lia.
  repeat (destruct Hcases as [Hcases | Hcases];
          [rewrite Hcases in Hget; vm_compute in Hget;
           injection Hget as <-; simpl; tauto|]).
  rewrite Hcases in Hget. vm_compute in Hget.
  injection Hget as <-. simpl. tauto.
Qed.

Lemma quick_pass_bounds_detailed_score_witness :
  let pw := lit "Abc123!@#$%^" in
  let st := new_checker pw fallback_passwords in
  (check_character_types (H := latin1) st).1 = inr 4 /\
  (calculate_entropy (H := latin1) st).1 = inr (Surd (len pw) 94) /\
  5 <= self_score (evaluate (H := latin1) st).2 <= 13 /\
  (simple_strength_check (H := latin1) pw = "Strong"%string ->
   8 <= self_score (evaluate (H := latin1) st).2) /\
  match (evaluate (H := latin1) st).1 with
  | inr r => In (rating r) ["Weak"; "Moderate"; "Strong"; "Very Strong"]%string
  | inl ex => ex = OverflowError
  end.
Proof.
  intros pw st.
  apply (quick_pass_bounds_detailed_score (H := latin1) pw fallback_passwords).
  - intros c _ Hc. unfold isdecimal, isdigit, latin1 in *.
    unfold Latin1.isdecimal in Hc. unfold Latin1.isdigit. now rewrite Hc.
  - vm_compute. discriminate.
Defined.

(** ** [main]: the session as a whole *)

Lemma long_password_overflows `{UnicodeData} pw :
  324 <= len pw ->
  charset_size_of pw <> 0 ->
  pow2_overflows (entropy_of pw (len pw)) = true.
Proof.
  intros Hlen Hcs. unfold pow2_overflows.
  rewrite entropy_sq_entropy_of. apply Z.leb_le.
  destruct (charset_size_of_cases pw) as [Hz | [Hb _]]; [contradiction|].
  nia.
Qed.

Section MainLoop.

Context `{UnicodeData}.

Lemma main_loop_quit fs q rest :
  lower q = lit "quit" ->
  main_loop fs (q :: rest) =
  ([ Prompt "Enter Password: ";
     Print "
Thank you for using Password Strength Checker!" ], Returned).
Proof.
  intros Hq. cbn [main_loop].
  now rewrite bool_decide_eq_true_2 by exact Hq.
Qed.

Lemma main_loop_after_quit fs before q after :
  lower q = lit "quit" ->
  main_loop fs (before ++ q :: after) = main_loop fs (before ++ [q]).
Proof.
  intros Hq. induction before as [|p before IH].
  - simpl app. now rewrite !main_loop_quit.
  - simpl app. cbn [main_loop]. rewrite IH. reflexivity.
Qed.

(** One pass through the loop on a password that is not the sentinel and
    for which the constructor and [evaluate] return. *)
Lemma main_loop_pass fs p rest st r st' :
  lower p <> lit "quit" ->
  init fs p = inr st ->
  evaluate st = (inr r, st') ->
  main_loop fs (p :: rest) =
  (Prompt "Enter Password: " ::
   report r (deref st' (feedback r)) (simple_strength_check p) ++
   (main_loop fs rest).1,
   (main_loop fs rest).2).
Proof.
  intros Hq Hinit Hev. cbn [main_loop].
  rewrite bool_decide_eq_false_2 by exact Hq.
  rewrite Hinit, Hev. now destruct (main_loop fs rest).
Qed.

Lemma main_loop_raise fs p rest e :
  lower p <> lit "quit" ->
  match init fs p with
  | inl e' => e' = e
  | inr st => (evaluate st).1 = inl e
  end ->
  main_loop fs (p :: rest) = ([Prompt "Enter Password: "], Uncaught e).
Proof.
  intros Hq Hraise. cbn [main_loop].
  rewrite bool_decide_eq_false_2 by exact Hq.
  destruct (init fs p) as [e' | st]; [now subst e'|].
  destruct (evaluate st) as [[e' | r] st'];
    cbn [fst] in Hraise; [now injection Hraise as -> | discriminate Hraise].
Qed.

(** An exception ends the session where running out of input would have:
    what was printed before is the same. *)
Lemma main_loop_stops fs before p rest out e :
  main_loop fs before = (out, UncaughtEOFError) ->
  main_loop fs (p :: rest) = ([Prompt "Enter Password: "], Uncaught e) ->
  main_loop fs (before ++ p :: rest) = (out, Uncaught e).
Proof.
  intros Hbefore Hp. revert out Hbefore.
  induction before as [|x before IH]; intros out Hbefore.
  - simpl app. rewrite Hp. simpl in Hbefore. now injection Hbefore as <-.
  - simpl app. cbn [main_loop] in Hbefore |- *.
    destruct (bool_decide (lower x = lit "quit")); [discriminate Hbefore|].
    destruct (init fs x) as [e' | st]; [discriminate Hbefore|].
    destruct (evaluate st) as [[e' | r] st']; [discriminate Hbefore|].
    destruct (main_loop fs before) as [out1 exit1] eqn:Hrec.
    injection Hbefore as <- ->.
    now rewrite (IH out1 eq_refl).
Qed.

End MainLoop.

(** X19: nothing typed after the first line that is quit in lower case is read:
    the session is the same whatever follows it. *)
Theorem main_reads_nothing_after_quit `{UnicodeData} fs before q after :
  lower q = lit "quit" ->
  main fs (before ++ q :: after) = main fs (before ++ [q]).
Proof.
  intros Hq. unfold main. now rewrite (main_loop_after_quit fs before q after).
Qed.

Lemma main_reads_nothing_after_quit_witness :
  main (H := latin1) (OpenFailed FileNotFoundError)
       ([lit "password"] ++ lit "Quit" :: [lit "123456"; lit "x"])
  = main (H := latin1) (OpenFailed FileNotFoundError)
         ([lit "password"] ++ [lit "Quit"]).
Proof.
  apply (main_reads_nothing_after_quit
           (H := latin1) (OpenFailed FileNotFoundError)
           [lit "password"] (lit "Quit") [lit "123456"; lit "x"]).
  vm_compute. reflexivity.
Defined.

(** X20: the sentinel is recognised in any mix of upper and lower case, before
    the word list is opened: typed first, it ends the session with the
    banner, one prompt and the farewell, also when common_passwords.txt
    cannot be read. *)
Theorem quit_in_any_case_ends_main `{UnicodeData} fs q rest :
  is_ascii q ->
  List.map ascii_lower q = lit "quit" ->
  main fs (q :: rest) =
  ([ Print "Password Strength Checker
(Type 'quit' to exit)
";
     Prompt "Enter Password: ";
     Print "
Thank you for using Password Strength Checker!" ], Returned).
Proof.
  intros Hascii Hq. unfold main.
  rewrite main_loop_quit; [reflexivity|].
  now rewrite lower_ascii.
Qed.

Lemma quit_in_any_case_ends_main_witness :
  main (H := latin1) (OpenFailed PermissionError)
       (lit "QuIt" :: [lit "password"]) =
  ([ Print "Password Strength Checker
(Type 'quit' to exit)
";
     Prompt "Enter Password: ";
     Print "
Thank you for using Password Strength Checker!" ], Returned).
Proof.
  apply (quit_in_any_case_ends_main
           (H := latin1) (OpenFailed PermissionError) (lit "QuIt")
           [lit "password"]).
  - apply is_ascii_forallb. vm_compute. reflexivity.
  - vm_compute. reflexivity.
Defined.

(** X21: a password on which [evaluate] overflows ends the session with an
    uncaught OverflowError: nothing is printed for it, nothing after it is
    read (not even quit), and what was printed for the passwords before it
    is what the session shows when the input ends there. *)
Theorem main_stops_at_overflowing_password `{UnicodeData}
    fs common before p rest out :
  load_common_passwords fs = inr common ->
  main fs before = (out, UncaughtEOFError) ->
  lower p <> lit "quit" ->
  324 <= len p ->
  charset_size_of p <> 0 ->
  main fs (before ++ p :: rest) = (out, Uncaught OverflowError).
Proof.
  intros Hload Hbefore Hq Hlen Hcs. unfold main in *.
  destruct (main_loop fs before) as [out1 exit1] eqn:Hloop.
  injection Hbefore as <- ->.
  rewrite (main_loop_stops fs before p rest out1 OverflowError Hloop);
    [reflexivity|].
  apply main_loop_raise; [exact Hq|].
  unfold init. rewrite Hload.
  apply evaluate_new_raises. now apply long_password_overflows.
Qed.

Lemma main_stops_at_overflowing_password_witness :
  let fs := OpenFailed FileNotFoundError in
  main (H := latin1) fs ([lit "password"] ++ repeat 48%N 324 :: [lit "quit"])
  = ((main (H := latin1) fs [lit "password"]).1, Uncaught OverflowError).
Proof.
  intros fs.
  apply (main_stops_at_overflowing_password
           (H := latin1) fs fallback_passwords [lit "password"]
           (repeat 48%N 324) [lit "quit"]).
  - reflexivity.
  - vm_compute. reflexivity.
  - vm_compute. discriminate.
  - vm_compute. discriminate.
  - vm_compute. discriminate.
Defined.

Section MainExits.

Context `{UnicodeData}.

Lemma init_cases fs p :
  match init fs p with
  | inr st => exists common, st = new_checker p common
  | inl e =>
      (exists oe,
         (fs = OpenFailed oe \/ fs = ReadFailed (ReadOSError oe)) /\
         oe <> FileNotFoundError /\ e = OSErr oe) \/
      (fs = ReadFailed DecodeFailed /\ e = UnicodeDecodeError)
  end.
Proof.
  unfold init.
  destruct (load_common_passwords fs) as [e | common] eqn:Hload.
  - now apply load_common_passwords_raises.
  - now exists common.
Qed.

Lemma simple_strength_check_labels pw :
  In (simple_strength_check pw) ["Weak"; "Moderate"; "Strong"]%string.
Proof.
  unfold simple_strength_check.
  repeat match goal with
         | |- context [if ?b then _ else _] => destruct b
         end; simpl; tauto.
Qed.

Lemma report_ok r fbs simple :
  -4 <= score r <= 13 ->
  In (rating r) rating_table ->
  In simple ["Weak"; "Moderate"; "Strong"]%string ->
  Forall output_ok (report r fbs simple).
Proof.
  intros Hscore Hrating Hsimple. unfold report.
  assert (Hstr : forall before s after,
            (before = "Rating: "%string -> In s rating_table) ->
            (before = "Simple Password Strength: "%string ->
             In s ["Weak"; "Moderate"; "Strong"]%string) ->
            output_ok (PrintF before (VStr s) after))
    by (intros before s after H1 H2; split; assumption).
  apply Forall_app. split.
  { repeat (apply List.Forall_cons || apply List.Forall_nil);
      first [ exact I | exact Hscore
            | apply Hstr; intros Heq; first [discriminate Heq | assumption] ]. }
  apply Forall_app. split.
  - apply List.Forall_forall. intros o Ho.
    apply in_map_iff in Ho as (fb & <- & _).
    apply Hstr; intros Heq; discriminate Heq.
  - repeat (apply List.Forall_cons || apply List.Forall_nil);
      first [ exact I
            | apply Hstr; intros Heq; first [discriminate Heq | assumption] ].
Qed.

Lemma main_loop_ok fs stdin : Forall output_ok (main_loop fs stdin).1.
Proof.
  induction stdin as [|p rest IH]; cbn [main_loop].
  - repeat constructor.
  - destruct (bool_decide (lower p = lit "quit")); [repeat constructor|].
    pose proof (init_cases fs p) as Hinit.
    destruct (init fs p) as [e | st]; [repeat constructor|].
    destruct Hinit as [common ->].
    destruct (evaluate_new p common) as (label & Hin & _ & ->).
    destruct (pow2_overflows _); [repeat constructor|].
    destruct (main_loop fs rest) as [out exit]. cbn [fst] in *.
    constructor; [exact I|]. apply Forall_app. split; [|exact IH].
    apply report_ok; cbn [score rating].
    + pose proof (score_gain_bounds (new_checker p common)).
      pose proof (score_gain_upper (new_checker p common)). lia.
    + exact Hin.
    + apply simple_strength_check_labels.
Qed.


End MainExits.

(** X22: when common_passwords.txt exists but cannot be opened, the first line
    typed that is not the sentinel ends the session with the uncaught
    error of [open]; nothing is printed for it. *)
Theorem main_stops_when_file_unreadable `{UnicodeData} e p rest :
  e <> FileNotFoundError ->
  lower p <> lit "quit" ->
  main (OpenFailed e) (p :: rest) =
  ([ Print "Password Strength Checker
(Type 'quit' to exit)
";
     Prompt "Enter Password: " ], Uncaught (OSErr e)).
Proof.
  intros He Hq. unfold main.
  rewrite (main_loop_raise (OpenFailed e) p rest (OSErr e)); [reflexivity | exact Hq |].
  unfold init, load_common_passwords, read_common_passwords.
  destruct e; [contradiction | | |]; reflexivity.
Qed.

Lemma main_stops_when_file_unreadable_witness :
  main (H := latin1) (OpenFailed PermissionError)
       (lit "password" :: [lit "quit"]) =
  ([ Print "Password Strength Checker
(Type 'quit' to exit)
";
     Prompt "Enter Password: " ], Uncaught (OSErr PermissionError)).
Proof.
  apply (main_stops_when_file_unreadable
           (H := latin1) PermissionError (lit "password") [lit "quit"]).
  - discriminate.
  - vm_compute. discriminate.
Defined.

(** X23: whatever is typed, and whatever the word list, every score a session
    prints lies between -4 and 13 (under the heading of line 137 that
    counts out of 15), every rating it prints is one of the five labels and
    every quick answer one of Weak, Moderate and Strong: each password gets
    an instance of its own, so nothing adds up from one to the next. *)
Theorem main_writes_are_bounded `{UnicodeData} fs stdin :
  let out := (main fs stdin).1 in
  (forall s after, In (PrintF "Score: " (VInt s) after) out -> -4 <= s <= 13) /\
  (forall r after,
     In (PrintF "Rating: " (VStr r) after) out ->
     In r ["Very Weak"; "Weak"; "Moderate"; "Strong"; "Very Strong"]%string) /\
  (forall r after,
     In (PrintF "Simple Password Strength: " (VStr r) after) out ->
     In r ["Weak"; "Moderate"; "Strong"]%string).
Proof.
  intros out.
  assert (Hall : Forall output_ok out).
  { subst out. unfold main. pose proof (main_loop_ok fs stdin) as Hloop.
    destruct (main_loop fs stdin) as [o e]. cbn [fst] in *.
    constructor; [exact I | exact Hloop]. }
  rewrite List.Forall_forall in Hall.
  split; [|split].
  - intros s after Hin. exact (Hall _ Hin).
  - intros r after Hin. destruct (Hall _ Hin) as [Hr _]. now apply Hr.
  - intros r after Hin. destruct (Hall _ Hin) as [_ Hs]. now apply Hs.
Qed.


(** X25: when common_passwords.txt opens but the iteration over it raises (the
    bytes do not decode, or a read fails with an OSError other than
    FileNotFoundError), no fallback is substituted: the exception leaves
    [load_common_passwords] and the constructor, and the first line typed
    that is not the sentinel ends the session with it. *)
Theorem main_stops_when_read_fails `{UnicodeData} e :
  e <> ReadOSError FileNotFoundError ->
  load_common_passwords (ReadFailed e) = inl (read_exn e) /\
  (forall p, init (ReadFailed e) p = inl (read_exn e)) /\
  (forall p rest,
     lower p <> lit "quit" ->
     main (ReadFailed e) (p :: rest) =
     ([ Print "Password Strength Checker
(Type 'quit' to exit)
";
        Prompt "Enter Password: " ], Uncaught (read_exn e))).
Proof.
  intros He.
  assert (Hload : load_common_passwords (ReadFailed e) = inl (read_exn e)).
  { unfold load_common_passwords, read_common_passwords.
    destruct e as [| []]; try reflexivity. now contradiction He. }
  assert (Hinit : forall p, init (ReadFailed e) p = inl (read_exn e)).
  { intros p. unfold init. now rewrite Hload. }
  split; [exact Hload|]. split; [exact Hinit|].
  intros p rest Hq. unfold main.
  rewrite (main_loop_raise (ReadFailed e) p rest (read_exn e));
    [reflexivity | exact Hq |].
  now rewrite Hinit.
Qed.

(** A file that is not text in the encoding of the locale. *)
Lemma main_stops_when_read_fails_witness :
  load_common_passwords (H := latin1) (ReadFailed DecodeFailed)
    = inl UnicodeDecodeError /\
  (forall p, init (H := latin1) (ReadFailed DecodeFailed) p
             = inl UnicodeDecodeError) /\
  (forall p rest,
     lower (UnicodeData := latin1) p <> lit "quit" ->
     main (H := latin1) (ReadFailed DecodeFailed) (p :: rest) =
     ([ Print "Password Strength Checker
(Type 'quit' to exit)
";
        Prompt "Enter Password: " ], Uncaught UnicodeDecodeError)).
Proof.
  apply (main_stops_when_read_fails (H := latin1) DecodeFailed).
  discriminate.
Defined.

(** ** The empty password *)

(** X18: the empty password, whatever the word list: the length check returns 0,
    no class is counted, the entropy is the int 0, reported as 0, and the
    crack time is less than a minute. [evaluate] returns; when the empty
    string is not in the word list the score is 0 and the rating Very Weak,
    and when it is, the score is -2 and the rating Very Strong. *)
Theorem evaluate_empty_password_any_list `{UnicodeData} common :
  let st := new_checker [] common in
  (check_length st).1 = inr 0 /\
  (check_character_types st).1 = inr 0 /\
  (check_common_patterns st).1 = inr 0 /\
  (calculate_entropy st).1 = inr Zero /\
  exists r,
    (evaluate st).1 = inr r /\
    entropy r = Tenths 0 /\
    bucket (crack_time r) = LessThanAMinute /\
    (if bool_decide (([] : str) ∈ common)
     then score r = -2 /\ rating r = "Very Strong"%string
     else score r = 0 /\ rating r = "Very Weak"%string).
Proof.
  intros st.
  assert (Hpat : has_bad_pattern [] = false).
  { unfold has_bad_pattern. rewrite lower_nil. reflexivity. }
  assert (Hgain : score_gain st =
                  if bool_decide (([] : str) ∈ common) then -2 else 0).
  { unfold score_gain. subst st. unfold new_checker.
    cbn [self_length self_password self_common_passwords].
    unfold common_part, patterns_part. rewrite Hpat, lower_nil.
    destruct (bool_decide _); reflexivity. }
  split; [reflexivity|]. split; [reflexivity|]. split.
  { rewrite check_common_patterns_run. unfold patterns_part. subst st.
    unfold new_checker. cbn [fst self_password]. now rewrite Hpat. }
  split; [reflexivity|].
  destruct (evaluate_new [] common) as (label & _ & Hget & Hev).
  fold st in Hget, Hev. rewrite Hev.
  change (entropy_of [] (len [])) with Zero. cbn [fst].
  change (pow2_overflows Zero) with false. cbv iota.
  eexists. split; [reflexivity|]. cbn [entropy crack_time score rating].
  split; [reflexivity|]. split.
  { cbn [bucket]. unfold seconds_R. cbn [entropy_R].
    rewrite Rpower_O by lra.
    destruct (Rlt_dec (1 / 2 / 1e12) 60) as [_ | Hge]; [reflexivity|].
    exfalso. apply Hge. lra. }
  rewrite Hgain in Hget |- *.
  destruct (bool_decide _); vm_compute in Hget; injection Hget as <-;
    split; reflexivity.
Qed.

(** ** Making a password longer, for the quick classifier *)

Lemma re_search_app (class : N -> bool) (s t : str) :
  re_search class s = true -> re_search class (s ++ t) = true.
Proof.
  unfold re_search. rewrite existsb_app. intros ->. reflexivity.
Qed.

(** X17: appending characters never lowers the answer of the quick classifier:
    an answer other than Weak stays other than Weak, and Strong stays
    Strong. *)
Theorem appending_keeps_quick_answer `{UnicodeData} pw extra :
  simple_strength_check pw <> "Weak"%string ->
  simple_strength_check (pw ++ extra) <> "Weak"%string /\
  (simple_strength_check pw = "Strong"%string ->
   simple_strength_check (pw ++ extra) = "Strong"%string).
Proof.
  intros Hquick.
  assert (Hlen : len pw <= len (pw ++ extra)).
  { unfold len. rewrite List.length_app. lia. }
  unfold simple_strength_check in *.
  destruct (Z.ltb_spec (len pw) 8) as [|H8]; [congruence|].
  destruct (re_search _ pw) eqn:Hl in Hquick |- *; simpl in Hquick |- *;
    [|congruence].
  destruct (re_search _ pw) eqn:Hu in Hquick |- *; simpl in Hquick |- *;
    [|congruence].
  destruct (re_search isdecimal pw) eqn:Hd in Hquick |- *;
    simpl in Hquick |- *; [|congruence].
  destruct (re_search _ pw) eqn:Hs in Hquick |- *; simpl in Hquick |- *;
    [|congruence].
  destruct (Z.ltb_spec (len (pw ++ extra)) 8); [lia|].
  rewrite (re_search_app _ pw extra Hl), (re_search_app _ pw extra Hu),
          (re_search_app _ pw extra Hd), (re_search_app _ pw extra Hs).
  simpl. split.
  - destruct (len (pw ++ extra) <? 12); discriminate.
  - destruct (Z.ltb_spec (len pw) 12); [discriminate|].
    destruct (Z.ltb_spec (len (pw ++ extra)) 12); [lia | reflexivity].
Qed.

Lemma appending_keeps_quick_answer_witness :
  simple_strength_check (H := latin1) (lit "Abc123!@" ++ lit "#$%^")
    <> "Weak"%string /\
  (simple_strength_check (H := latin1) (lit "Abc123!@") = "Strong"%string ->
   simple_strength_check (H := latin1) (lit "Abc123!@" ++ lit "#$%^")
     = "Strong"%string).
Proof.
  apply (appending_keeps_quick_answer
           (H := latin1) (lit "Abc123!@") (lit "#$%^")).
  vm_compute. discriminate.
Defined.
